(** * A negotiation between a customer and a wedding planner

    Shallow embedding of [agent.py]: the utility model, the concession
    strategy, the acceptance rule and the alternating-offer loop of
    [NegotiationSimulation.run_negotiation], followed by the properties the
    specification states about them.

    Numbers.  The program computes on Python floats.  They are modelled here
    as real numbers: [+], [-], [*], [abs] and the comparisons are the exact
    ones, [math.exp] is the real exponential and [math.log] the real
    logarithm.  Rounding, infinities and NaN are outside the model.  What
    Python raises is kept: [/] raises [ZeroDivisionError] on a zero divisor,
    [math.log] raises [ValueError] on an argument that is not positive, and
    [math.exp] raises [OverflowError] when its result exceeds the largest
    double. *)

From Stdlib Require Import Reals Lra Lia List Arith Bool.
From Equations Require Import Equations.
Import ListNotations.

Open Scope R_scope.

(** ** Exceptions *)

Inductive PyError : Type :=
| ZeroDivisionError
| ValueError
| OverflowError.

Inductive result (A : Type) : Type :=
| Ok (a : A)
| Raise (e : PyError).

Arguments Ok {A} a.
Arguments Raise {A} e.

Definition bind {A B : Type} (m : result A) (k : A -> result B) : result B :=
  match m with
  | Ok a => k a
  | Raise e => Raise e
  end.

Notation "x <- m ;; k" := (bind m (fun x => k))
  (at level 61, m at next level, right associativity).

(** ** Python arithmetic on numbers *)

Definition Rltb (x y : R) : bool := if Rlt_dec x y then true else false.
Definition Rgeb (x y : R) : bool := if Rge_dec x y then true else false.
Definition Reqb (x y : R) : bool := if Req_dec_T x y then true else false.

(** [x / y] *)
Definition py_div (x y : R) : result R :=
  if Reqb y 0 then Raise ZeroDivisionError else Ok (x / y).

(** [min(a, b)]: the first argument is kept unless the second is smaller. *)
Definition py_min (a b : R) : R := if Rltb b a then b else a.

(** [max(a, b)]: the first argument is kept unless the second is larger. *)
Definition py_max (a b : R) : R := if Rltb a b then b else a.

(** The largest double, [(2 - 2^-52) * 2^1023]. *)
Definition float_max : R := (2 - / 2 ^ 52) * 2 ^ 1023.

(** [math.exp(x)]: a result too large for a double is a range error. *)
Definition math_exp (x : R) : result R :=
  if Rltb float_max (exp x) then Raise OverflowError else Ok (exp x).

Definition math_log (x : R) : result R :=
  if Rltb 0 x then Ok (ln x) else Raise ValueError.

(** ** Data model *)

(** The two roles an agent is created with, ['customer'] and
    ['wedding_planner']. *)
Inductive Role : Type :=
| customer
| wedding_planner.

(** The service levels ['Premium'], ['Standard'] and ['Basic']. *)
Inductive ServiceLevel : Type :=
| Premium
| Standard
| Basic.

Definition Role_eqb (r1 r2 : Role) : bool :=
  match r1, r2 with
  | customer, customer => true
  | wedding_planner, wedding_planner => true
  | _, _ => false
  end.

Definition ServiceLevel_eqb (s1 s2 : ServiceLevel) : bool :=
  match s1, s2 with
  | Premium, Premium => true
  | Standard, Standard => true
  | Basic, Basic => true
  | _, _ => false
  end.

(** The preferences dictionary. *)
Record Preferences : Type := mkPreferences {
  min_budget : R;
  max_budget : R;
  optimal_budget : R;
  optimal_services : ServiceLevel;
  preferred_timeline : R;
  max_timeline : R;
  min_timeline : R;
  optimal_timeline : R
}.

(** An offer, the dictionary with keys ['budget'], ['services'] and
    ['timeline']. *)
Record Offer : Type := mkOffer {
  budget : R;
  services : ServiceLevel;
  timeline : R
}.

Record Weights : Type := mkWeights {
  w_budget : R;
  w_services : R;
  w_timeline : R
}.

Record NegotiationAgent : Type := mkAgent {
  role : Role;
  preferences : Preferences
}.

(** The two attributes [__init__] sets to constants. *)
Definition budget_sensitivity (a : NegotiationAgent) : R := 5000.

Definition utility_weights (a : NegotiationAgent) (r : Role) : Weights :=
  match r with
  | customer => mkWeights 0.5 0.3 0.2
  | wedding_planner => mkWeights 0.6 0.3 0.1
  end.

(** ** Utility model *)

Definition calculate_budget_utility (a : NegotiationAgent)
    (negotiated_budget : R) : result R :=
  match role a with
  | customer =>
      q <- py_div (negotiated_budget - min_budget (preferences a))
                  (budget_sensitivity a) ;;
      e <- math_exp q ;;
      py_div 1 (1 + e)
  | wedding_planner =>
      q <- py_div negotiated_budget (min_budget (preferences a)) ;;
      math_log q
  end.

Definition service_utilities (r : Role) (s : ServiceLevel) : R :=
  match r, s with
  | customer, Premium => 1.0
  | customer, Standard => 0.7
  | customer, Basic => 0.4
  | wedding_planner, Premium => 1.0
  | wedding_planner, Standard => 0.8
  | wedding_planner, Basic => 0.5
  end.

Definition calculate_services_utility (a : NegotiationAgent)
    (service_level : ServiceLevel) : R :=
  service_utilities (role a) service_level.

Definition calculate_timeline_utility (a : NegotiationAgent)
    (negotiated_timeline : R) : result R :=
  match role a with
  | customer =>
      q <- py_div (negotiated_timeline - preferred_timeline (preferences a))
                  (max_timeline (preferences a)) ;;
      Ok (1 - Rabs q)
  | wedding_planner =>
      q <- py_div negotiated_timeline (max_timeline (preferences a)) ;;
      Ok (1 - q)
  end.

Definition calculate_total_utility (a : NegotiationAgent) (offer : Offer)
    : result R :=
  budget_utility <- calculate_budget_utility a (budget offer) ;;
  let services_utility := calculate_services_utility a (services offer) in
  timeline_utility <- calculate_timeline_utility a (timeline offer) ;;
  let weights := utility_weights a (role a) in
  Ok (w_budget weights * budget_utility
      + w_services weights * services_utility
      + w_timeline weights * timeline_utility).

(** ** Concession strategy *)

Definition generate_offer (a : NegotiationAgent)
    (previous_offer : option Offer) : Offer :=
  match previous_offer with
  | None =>
      mkOffer (optimal_budget (preferences a))
              (optimal_services (preferences a))
              (optimal_timeline (preferences a))
  | Some prev =>
      match role a with
      | customer =>
          mkOffer (py_min (budget prev * 1.05) (max_budget (preferences a)))
                  (if ServiceLevel_eqb (services prev) Basic
                   then Standard else services prev)
                  (timeline prev)
      | wedding_planner =>
          mkOffer (budget prev)
                  (services prev)
                  (py_max (timeline prev * 0.9) (min_timeline (preferences a)))
      end
  end.

(** ** Acceptance rule *)

Definition threshold (a : NegotiationAgent) : R :=
  match role a with
  | customer => 0.8
  | wedding_planner => 0.6
  end.

Definition evaluate_offer (a : NegotiationAgent) (offer : Offer)
    : result bool :=
  utility <- calculate_total_utility a offer ;;
  Ok (Rgeb utility (threshold a)).

(** ** The negotiation engine *)

(** One entry of [negotiation_history]. *)
Record RoundInfo : Type := mkRoundInfo {
  round : nat;
  offering_agent : Role;
  offer : Offer;
  accepted : bool
}.

(** What [run_negotiation] prints, one event per [print] statement or
    group of adjacent ones. *)
Inductive Output : Type :=
| PrintInitialOffers (customer_offer planner_offer : Offer)
| PrintRound (n : nat)
| PrintEvaluation (r : Role) (o : Offer) (is_accepted : bool)
| PrintAgreement (o : Offer) (total_rounds : nat)
| PrintFailed.

(** The attributes of a simulation.  [self.customer] and
    [self.wedding_planner] are [sim_customer] and [sim_wedding_planner] here,
    the plain names being those of the two roles. *)
Record NegotiationSimulation : Type := mkSimulation {
  sim_customer : NegotiationAgent;
  sim_wedding_planner : NegotiationAgent;
  max_rounds : nat;
  current_round : nat;
  negotiation_history : list RoundInfo
}.

(** [NegotiationSimulation.__init__] *)
Definition init_simulation (c p : NegotiationAgent) : NegotiationSimulation :=
  mkSimulation c p 10 0 [].

Definition set_current_round (s : NegotiationSimulation) (n : nat)
    : NegotiationSimulation :=
  mkSimulation (sim_customer s) (sim_wedding_planner s) (max_rounds s) n
               (negotiation_history s).

Definition append_history (s : NegotiationSimulation) (r : RoundInfo)
    : NegotiationSimulation :=
  mkSimulation (sim_customer s) (sim_wedding_planner s) (max_rounds s)
               (current_round s) (negotiation_history s ++ [r]).

(** How a call ends: it returns an offer or [None], or an exception leaves
    it. *)
Inductive Outcome : Type :=
| Returned (o : option Offer)
| Raised (e : PyError).

(** The [while] loop of [run_negotiation], from the state [s] of the
    simulation and the local variables [current_offer], [current_agent] and
    [responding_agent]. *)
Equations? negotiation_loop (s : NegotiationSimulation)
    (current_offer : Offer) (current_agent responding_agent : NegotiationAgent)
    (out : list Output)
    : Outcome * NegotiationSimulation * list Output
    by wf (max_rounds s - current_round s)%nat lt :=
  negotiation_loop s current_offer current_agent responding_agent out
    with lt_dec (current_round s) (max_rounds s) := {
    | right _ => (Returned None, s, out ++ [PrintFailed])
    | left Hlt =>
        let s1 := set_current_round s (current_round s + 1) in
        let out1 := out ++ [PrintRound (current_round s1)] in
        match evaluate_offer responding_agent current_offer with
        | Raise e => (Raised e, s1, out1)
        | Ok is_accepted =>
            let negotiation_round_info :=
              mkRoundInfo (current_round s1) (role current_agent)
                          current_offer is_accepted in
            let s2 := append_history s1 negotiation_round_info in
            let out2 :=
              out1 ++ [PrintEvaluation (role current_agent) current_offer
                                       is_accepted] in
            if is_accepted
            then (Returned (Some current_offer), s2,
                  out2 ++ [PrintAgreement current_offer (current_round s2)])
            else negotiation_loop s2
                   (generate_offer current_agent (Some current_offer))
                   responding_agent current_agent out2
        end }.
Proof.
  simpl. lia.
Qed.

(** [NegotiationSimulation.run_negotiation] *)
Definition run_negotiation (s : NegotiationSimulation)
    : Outcome * NegotiationSimulation * list Output :=
  let customer_offer := generate_offer (sim_customer s) None in
  let planner_offer := generate_offer (sim_wedding_planner s) None in
  let out := [PrintInitialOffers customer_offer planner_offer] in
  let current_offer := customer_offer in
  let current_agent := sim_wedding_planner s in
  let responding_agent := sim_customer s in
  negotiation_loop s current_offer current_agent responding_agent out.

(** The result of a call, taken apart. *)
Definition outcome_of (x : Outcome * NegotiationSimulation * list Output)
    : Outcome := fst (fst x).
Definition state_of (x : Outcome * NegotiationSimulation * list Output)
    : NegotiationSimulation := snd (fst x).
Definition output_of (x : Outcome * NegotiationSimulation * list Output)
    : list Output := snd x.

(** The two updates of the simulation one iteration of the loop makes:
    [self.current_round += 1], then the [append] to the history. *)
Definition begin_round (s : NegotiationSimulation) : NegotiationSimulation :=
  set_current_round s (current_round s + 1).

Definition record_round (s : NegotiationSimulation) (cur : NegotiationAgent)
    (o : Offer) (b : bool) : NegotiationSimulation :=
  append_history (begin_round s)
    (mkRoundInfo (current_round s + 1) (role cur) o b).

(** ** Vocabulary of the properties *)

(** The history a run of the loop appends, read as a chain: each record
    carries the offer under evaluation, credits it to [cur], holds the
    verdict of [resp], and the next offer is generated by [cur] before the
    two agents trade places. *)
Inductive round_chain
    : nat -> NegotiationAgent -> NegotiationAgent -> Offer ->
      list RoundInfo -> Prop :=
| chain_end : forall n cur resp o, round_chain n cur resp o []
| chain_round : forall n cur resp o b rest,
    evaluate_offer resp o = Ok b ->
    round_chain (S n) resp cur (generate_offer cur (Some o)) rest ->
    round_chain n cur resp o (mkRoundInfo (S n) (role cur) o b :: rest).

(** The agent that evaluates in the round of index [k] (counted from 0):
    the customer in rounds 1, 3, 5, ..., the planner in rounds 2, 4, ... *)
Definition evaluator (c p : NegotiationAgent) (k : nat) : NegotiationAgent :=
  if Nat.even k then c else p.

(** The offer the round of index [k] starts from: none in the first round,
    the offer of the round before otherwise. *)
Definition previous_offer (h : list RoundInfo) (k : nat) : option Offer :=
  match k with
  | O => None
  | S j => option_map offer (nth_error h j)
  end.

(** Desirability order of the service levels, Premium > Standard > Basic. *)
Definition service_rank (s : ServiceLevel) : nat :=
  match s with
  | Premium => 2
  | Standard => 1
  | Basic => 0
  end.

(** Number of rounds a run has announced. *)
Fixpoint count_rounds (out : list Output) : nat :=
  match out with
  | [] => 0
  | PrintRound _ :: out' => S (count_rounds out')
  | _ :: out' => count_rounds out'
  end.

(** Number of verdicts a run has printed. *)
Fixpoint count_evaluations (out : list Output) : nat :=
  match out with
  | [] => 0
  | PrintEvaluation _ _ _ :: out' => S (count_evaluations out')
  | _ :: out' => count_evaluations out'
  end.

(** An agent whose three [optimal_*] preferences are replaced. *)
Definition with_optimal (a : NegotiationAgent) (b : R) (sv : ServiceLevel)
    (t : R) : NegotiationAgent :=
  mkAgent (role a)
    (mkPreferences (min_budget (preferences a)) (max_budget (preferences a))
       b sv (preferred_timeline (preferences a))
       (max_timeline (preferences a)) (min_timeline (preferences a)) t).

(** ** Example agents *)

(** The preferences of [main]. *)
Definition customer_preferences : Preferences :=
  mkPreferences 10000 50000 15000 Standard 6 12 3 6.

Definition planner_preferences : Preferences :=
  mkPreferences 10000 50000 40000 Premium 4 12 3 4.

Definition main_customer : NegotiationAgent :=
  mkAgent customer customer_preferences.

Definition main_planner : NegotiationAgent :=
  mkAgent wedding_planner planner_preferences.

(** A customer whose opening offer sits at [min_budget], asks for Premium
    and for its preferred timeline. *)
Definition scenario_b_customer : NegotiationAgent :=
  mkAgent customer (mkPreferences 10000 50000 10000 Premium 6 12 3 6).

(** The same customer with no room above its opening budget, and a planner
    that cannot shorten the timeline below 6: the offer never moves. *)
Definition firm_customer : NegotiationAgent :=
  mkAgent customer (mkPreferences 10000 10000 10000 Premium 6 12 3 6).

Definition firm_planner : NegotiationAgent :=
  mkAgent wedding_planner (mkPreferences 10000 50000 40000 Premium 6 12 6 6).

Definition firm_offer : Offer := mkOffer 10000 Premium 6.



(** Two agents that answer every offer alike: same role, same verdicts, same
    counter-offers. *)
Definition same_conduct (a a' : NegotiationAgent) : Prop :=
  role a = role a' /\
  (forall o, evaluate_offer a o = evaluate_offer a' o) /\
  (forall o, generate_offer a (Some o) = generate_offer a' (Some o)).
(** ** Vocabulary of the further properties *)

(** The offer on the table after [n] rejections in a row, when the loop
    starts from the offer [o] with [cur] as current agent and [resp] as
    responding agent: each rejection has the current agent generate the next
    offer, then the two agents trade places. *)
Fixpoint offer_after (cur resp : NegotiationAgent) (o : Offer) (n : nat)
    : Offer :=
  match n with
  | O => o
  | S n' => offer_after resp cur (generate_offer cur (Some o)) n'
  end.

(** What the customer's concession does to the services. *)
Definition upgraded (s : ServiceLevel) : ServiceLevel :=
  if ServiceLevel_eqb s Basic then Standard else s.

(** A customer whose [max_timeline] is zero. *)
Definition zero_max_customer : NegotiationAgent :=
  mkAgent customer (mkPreferences 10000 50000 15000 Standard 6 0 3 6).

(** ** The entry point *)



(** * Properties *)

(** ** Python arithmetic *)

Lemma Rltb_true (x y : R) : Rltb x y = true <-> x < y.
Proof.
  unfold Rltb. destruct (Rlt_dec x y); split; intros; congruence || lra.
Qed.

Lemma Rltb_false (x y : R) : Rltb x y = false <-> y <= x.
Proof.
  unfold Rltb. destruct (Rlt_dec x y); split; intros; congruence || lra.
Qed.

Lemma Rgeb_true (x y : R) : Rgeb x y = true <-> x >= y.
Proof.
  unfold Rgeb. destruct (Rge_dec x y); split; intros; congruence || lra.
Qed.

Lemma Rgeb_false (x y : R) : Rgeb x y = false <-> x < y.
Proof.
  unfold Rgeb. destruct (Rge_dec x y); split; intros; congruence || lra.
Qed.

Lemma py_div_ok (x y : R) : y <> 0 -> py_div x y = Ok (x / y).
Proof.
  intros H. unfold py_div, Reqb.
  destruct (Req_dec_T y 0); [contradiction | reflexivity].
Qed.

Lemma py_div_zero (x : R) : py_div x 0 = Raise ZeroDivisionError.
Proof.
  unfold py_div, Reqb. destruct (Req_dec_T 0 0); [reflexivity | lra].
Qed.

Lemma py_min_Rmin (a b : R) : py_min a b = Rmin a b.
Proof.
  unfold py_min, Rmin, Rltb.
  destruct (Rlt_dec b a), (Rle_dec a b); lra.
Qed.

Lemma py_max_Rmax (a b : R) : py_max a b = Rmax a b.
Proof.
  unfold py_max, Rmax, Rltb.
  destruct (Rlt_dec a b), (Rle_dec a b); lra.
Qed.

Lemma math_log_ok (x : R) : 0 < x -> math_log x = Ok (ln x).
Proof.
  intros H. unfold math_log. apply Rltb_true in H. rewrite H. reflexivity.
Qed.


Lemma one_plus_exp_pos (x : R) : 0 < 1 + exp x.
Proof. pose proof (exp_pos x). lra. Qed.

Lemma exp_INR_mult (n : nat) (x : R) : exp (INR n * x) = exp x ^ n.
Proof.
  induction n as [|n IH].
  - simpl. rewrite Rmult_0_l. apply exp_0.
  - rewrite S_INR, Rmult_plus_distr_r, Rmult_1_l, exp_plus, IH.
    simpl. ring.
Qed.

Lemma exp_le_compat (x y : R) : x <= y -> exp x <= exp y.
Proof.
  intros [H | ->]; [left; apply exp_increasing; assumption | lra].
Qed.

Lemma pow_2_1023_pos : 0 < 2 ^ 1023.
Proof. apply pow_lt. lra. Qed.

Lemma float_max_bounds : 2 ^ 1023 <= float_max /\ float_max < 2 ^ 1024.
Proof.
  pose proof pow_2_1023_pos as Hp.
  assert (H52 : 0 < / 2 ^ 52 <= 1).
  { assert (1 <= 2 ^ 52) by (apply pow_R1_Rle; lra).
    split.
    - apply Rinv_0_lt_compat. lra.
    - rewrite <- Rinv_1. apply Rinv_le_contravar; lra. }
  unfold float_max.
  change (2 ^ 1024) with (2 * 2 ^ 1023).
  split; nra.
Qed.

Lemma exp_below_2 : exp 0.6843 <= 2.
Proof.
  assert (H : / 2 <= exp (Ropp 0.6843)).
  { replace (Ropp 0.6843) with (INR 64 * (Ropp (0.6843 / 64)))
      by (simpl; lra).
    rewrite exp_INR_mult.
    apply Rle_trans with (0.9893 ^ 64); [simpl; lra|].
    apply pow_incr. split; [lra|].
    pose proof (exp_ineq1_le (Ropp (0.6843 / 64))). lra. }
  rewrite exp_Ropp in H.
  pose proof (exp_pos 0.6843) as Hp.
  apply Rinv_le_contravar in H; [|lra].
  rewrite Rinv_inv in H. rewrite Rinv_inv in H. exact H.
Qed.

Lemma exp_above_2 : 2 <= exp 0.7031.
Proof.
  replace 0.7031 with (INR 64 * (0.7031 / 64)) by (simpl; lra).
  rewrite exp_INR_mult.
  apply Rle_trans with (1.01098 ^ 64); [simpl; lra|].
  apply pow_incr. split; [lra|].
  pose proof (exp_ineq1_le (0.7031 / 64)). lra.
Qed.

Lemma exp_fits (x : R) : x <= 700 -> exp x <= float_max.
Proof.
  intros Hx. destruct float_max_bounds as [Hlo _].
  apply Rle_trans with (2 ^ 1023); [|exact Hlo].
  apply Rle_trans with (exp (INR 1023 * 0.6843)).
  - apply exp_le_compat. rewrite INR_IZR_INZ. simpl Z.of_nat. lra.
  - rewrite exp_INR_mult. apply pow_incr. split.
    + left. apply exp_pos.
    + exact exp_below_2.
Qed.

Lemma exp_overflows (x : R) : 720 <= x -> float_max < exp x.
Proof.
  intros Hx. destruct float_max_bounds as [_ Hhi].
  apply Rlt_le_trans with (2 ^ 1024); [exact Hhi|].
  apply Rle_trans with (exp (INR 1024 * 0.7031)).
  - rewrite exp_INR_mult. apply pow_incr. split; [lra | exact exp_above_2].
  - apply exp_le_compat. rewrite INR_IZR_INZ. simpl Z.of_nat. lra.
Qed.

Lemma math_exp_ok (x : R) : exp x <= float_max -> math_exp x = Ok (exp x).
Proof.
  intros H. unfold math_exp. apply Rltb_false in H. rewrite H. reflexivity.
Qed.

Lemma math_exp_overflow (x : R) :
  float_max < exp x -> math_exp x = Raise OverflowError.
Proof.
  intros H. unfold math_exp. apply Rltb_true in H. rewrite H. reflexivity.
Qed.

Lemma math_exp_cases (x : R) :
  (exp x <= float_max /\ math_exp x = Ok (exp x)) \/
  (float_max < exp x /\ math_exp x = Raise OverflowError).
Proof.
  destruct (Rle_lt_dec (exp x) float_max) as [H | H].
  - left. split; [exact H | apply math_exp_ok; exact H].
  - right. split; [exact H | apply math_exp_overflow; exact H].
Qed.

(** ** Utility model *)

Lemma customer_budget_utility_fits (a : NegotiationAgent) (b : R) :
  role a = customer ->
  exp ((b - min_budget (preferences a)) / 5000) <= float_max ->
  calculate_budget_utility a b =
    Ok (1 / (1 + exp ((b - min_budget (preferences a)) / 5000))).
Proof.
  intros Hr Hfit. unfold calculate_budget_utility, budget_sensitivity.
  rewrite Hr, py_div_ok by lra. simpl.
  rewrite math_exp_ok by assumption. simpl.
  apply py_div_ok. pose proof (one_plus_exp_pos
    ((b - min_budget (preferences a)) / 5000)). lra.
Qed.

Lemma customer_budget_utility_eq (a : NegotiationAgent) (b : R) :
  role a = customer ->
  (b - min_budget (preferences a)) / 5000 <= 700 ->
  calculate_budget_utility a b =
    Ok (1 / (1 + exp ((b - min_budget (preferences a)) / 5000))).
Proof.
  intros Hr Hq. apply customer_budget_utility_fits; [assumption|].
  apply exp_fits. exact Hq.
Qed.

Lemma customer_budget_utility_overflow (a : NegotiationAgent) (b : R) :
  role a = customer ->
  float_max < exp ((b - min_budget (preferences a)) / 5000) ->
  calculate_budget_utility a b = Raise OverflowError.
Proof.
  intros Hr Hover. unfold calculate_budget_utility, budget_sensitivity.
  rewrite Hr, py_div_ok by lra. simpl.
  rewrite math_exp_overflow by assumption. reflexivity.
Qed.

Lemma customer_budget_utility_inv (a : NegotiationAgent) (b u : R) :
  role a = customer ->
  calculate_budget_utility a b = Ok u ->
  exp ((b - min_budget (preferences a)) / 5000) <= float_max /\
  u = 1 / (1 + exp ((b - min_budget (preferences a)) / 5000)).
Proof.
  intros Hr H.
  destruct (math_exp_cases ((b - min_budget (preferences a)) / 5000))
    as [[Hfit _] | [Hover _]].
  - rewrite customer_budget_utility_fits in H by assumption.
    injection H as <-. split; [exact Hfit | reflexivity].
  - rewrite customer_budget_utility_overflow in H by assumption.
    discriminate.
Qed.

Lemma customer_timeline_utility_inv (a : NegotiationAgent) (t u : R) :
  role a = customer ->
  calculate_timeline_utility a t = Ok u ->
  max_timeline (preferences a) <> 0 /\
  u = 1 - Rabs ((t - preferred_timeline (preferences a))
                / max_timeline (preferences a)).
Proof.
  intros Hr H. unfold calculate_timeline_utility in H. rewrite Hr in H.
  destruct (Req_dec_T (max_timeline (preferences a)) 0) as [E | E].
  - rewrite E, py_div_zero in H. discriminate.
  - rewrite py_div_ok in H by assumption. injection H as <-.
    split; [exact E | reflexivity].
Qed.

Lemma planner_budget_utility_eq (a : NegotiationAgent) (b : R) :
  role a = wedding_planner ->
  0 < min_budget (preferences a) -> 0 < b ->
  calculate_budget_utility a b = Ok (ln (b / min_budget (preferences a))).
Proof.
  intros Hr Hm Hb. unfold calculate_budget_utility.
  rewrite Hr, py_div_ok by lra. simpl.
  apply math_log_ok. apply Rdiv_lt_0_compat; assumption.
Qed.

Lemma customer_timeline_utility_eq (a : NegotiationAgent) (t : R) :
  role a = customer ->
  max_timeline (preferences a) <> 0 ->
  calculate_timeline_utility a t =
    Ok (1 - Rabs ((t - preferred_timeline (preferences a))
                  / max_timeline (preferences a))).
Proof.
  intros Hr Hm. unfold calculate_timeline_utility.
  rewrite Hr, py_div_ok by assumption. reflexivity.
Qed.

Lemma planner_timeline_utility_eq (a : NegotiationAgent) (t : R) :
  role a = wedding_planner ->
  max_timeline (preferences a) <> 0 ->
  calculate_timeline_utility a t =
    Ok (1 - t / max_timeline (preferences a)).
Proof.
  intros Hr Hm. unfold calculate_timeline_utility.
  rewrite Hr, py_div_ok by assumption. reflexivity.
Qed.

Lemma total_utility_inv (a : NegotiationAgent) (o : Offer) (u : R) :
  calculate_total_utility a o = Ok u ->
  exists bu tu,
    calculate_budget_utility a (budget o) = Ok bu /\
    calculate_timeline_utility a (timeline o) = Ok tu /\
    u = w_budget (utility_weights a (role a)) * bu
        + w_services (utility_weights a (role a))
          * calculate_services_utility a (services o)
        + w_timeline (utility_weights a (role a)) * tu.
Proof.
  unfold calculate_total_utility. intros H.
  destruct (calculate_budget_utility a (budget o)) as [bu|e]; simpl in H;
    [|discriminate].
  destruct (calculate_timeline_utility a (timeline o)) as [tu|e]; simpl in H;
    [|discriminate].
  injection H as <-. exists bu, tu. repeat split.
Qed.

Lemma total_utility_ok (a : NegotiationAgent) (o : Offer) (bu tu : R) :
  calculate_budget_utility a (budget o) = Ok bu ->
  calculate_timeline_utility a (timeline o) = Ok tu ->
  calculate_total_utility a o =
    Ok (w_budget (utility_weights a (role a)) * bu
        + w_services (utility_weights a (role a))
          * calculate_services_utility a (services o)
        + w_timeline (utility_weights a (role a)) * tu).
Proof.
  intros Hb Ht. unfold calculate_total_utility. rewrite Hb, Ht. reflexivity.
Qed.

Lemma evaluate_offer_inv (a : NegotiationAgent) (o : Offer) (b : bool) :
  evaluate_offer a o = Ok b ->
  exists u, calculate_total_utility a o = Ok u /\ b = Rgeb u (threshold a).
Proof.
  unfold evaluate_offer. intros H.
  destruct (calculate_total_utility a o) as [u|e]; simpl in H; [|discriminate].
  injection H as <-. exists u. split; reflexivity.
Qed.

Lemma evaluate_offer_ok (a : NegotiationAgent) (o : Offer) (u : R) :
  calculate_total_utility a o = Ok u ->
  evaluate_offer a o = Ok (Rgeb u (threshold a)).
Proof. intros H. unfold evaluate_offer. rewrite H. reflexivity. Qed.

(** C3.  [evaluate_offer] returns [True] exactly when the weighted sum of
    the three component utilities, with weights 0.5, 0.3, 0.2 for the
    customer and 0.6, 0.3, 0.1 for the wedding planner, reaches the
    threshold, 0.8 for the customer and 0.6 for the wedding planner; it
    returns [False] exactly when the sum stays below the threshold. *)
Theorem evaluate_offer_weighted_sum :
  forall (a : NegotiationAgent) (o : Offer) (verdict : bool),
    evaluate_offer a o = Ok verdict <->
    exists budgetUtility timelineUtility,
      calculate_budget_utility a (budget o) = Ok budgetUtility /\
      calculate_timeline_utility a (timeline o) = Ok timelineUtility /\
      let servicesUtility := calculate_services_utility a (services o) in
      match role a with
      | customer =>
          verdict = true <->
          0.5 * budgetUtility + 0.3 * servicesUtility
            + 0.2 * timelineUtility >= 0.8
      | wedding_planner =>
          verdict = true <->
          0.6 * budgetUtility + 0.3 * servicesUtility
            + 0.1 * timelineUtility >= 0.6
      end.
Proof.
  intros a o verdict. split.
  - intros H. apply evaluate_offer_inv in H as (u & Hu & Hv).
    apply total_utility_inv in Hu as (bu & tu & Hb & Ht & ->).
    exists bu, tu. repeat split; try assumption.
    cbv zeta. subst verdict. unfold threshold.
    destruct (role a); simpl; apply Rgeb_true.
  - intros (bu & tu & Hb & Ht & H). cbv zeta in H.
    rewrite (evaluate_offer_ok _ _ _ (total_utility_ok _ _ _ _ Hb Ht)).
    f_equal. unfold threshold.
    destruct (role a); simpl in *;
      match goal with
      | |- Rgeb ?u ?t = _ =>
          destruct (Rgeb u t) eqn:E;
          [ apply Rgeb_true in E | apply Rgeb_false in E ]
      end;
      destruct verdict; try reflexivity.
    + apply H in E. discriminate.
    + assert (true = true) as Ht' by reflexivity. apply H in Ht'. lra.
    + apply H in E. discriminate.
    + assert (true = true) as Ht' by reflexivity. apply H in Ht'. lra.
Qed.

(** ** Concession strategy *)

Lemma generate_offer_opening (a : NegotiationAgent) :
  generate_offer a None =
    mkOffer (optimal_budget (preferences a))
            (optimal_services (preferences a))
            (optimal_timeline (preferences a)).
Proof. reflexivity. Qed.

Lemma generate_offer_customer (a : NegotiationAgent) (prev : Offer) :
  role a = customer ->
  generate_offer a (Some prev) =
    mkOffer (Rmin (budget prev * 1.05) (max_budget (preferences a)))
            (match services prev with
             | Basic => Standard
             | other => other
             end)
            (timeline prev).
Proof.
  intros Hr. unfold generate_offer. rewrite Hr, py_min_Rmin.
  destruct (services prev); reflexivity.
Qed.

Lemma generate_offer_planner (a : NegotiationAgent) (prev : Offer) :
  role a = wedding_planner ->
  generate_offer a (Some prev) =
    mkOffer (budget prev)
            (services prev)
            (Rmax (timeline prev * 0.9) (min_timeline (preferences a))).
Proof.
  intros Hr. unfold generate_offer. rewrite Hr, py_max_Rmax. reflexivity.
Qed.

(** C5.  With no previous offer [generate_offer] returns the agent's three
    optimal preferences; from a previous offer the customer raises the
    budget by 5%, capped at [max_budget], turns Basic into Standard and
    keeps the timeline, and the wedding planner keeps budget and services
    and cuts the timeline by 10%, floored at [min_timeline]. *)
Theorem generate_offer_strategy :
  forall (a : NegotiationAgent) (prev : Offer),
    generate_offer a None =
      mkOffer (optimal_budget (preferences a))
              (optimal_services (preferences a))
              (optimal_timeline (preferences a)) /\
    generate_offer a (Some prev) =
      match role a with
      | customer =>
          mkOffer (Rmin (budget prev * 1.05) (max_budget (preferences a)))
                  (match services prev with
                   | Basic => Standard
                   | other => other
                   end)
                  (timeline prev)
      | wedding_planner =>
          mkOffer (budget prev)
                  (services prev)
                  (Rmax (timeline prev * 0.9) (min_timeline (preferences a)))
      end.
Proof.
  intros a prev. split.
  - apply generate_offer_opening.
  - destruct (role a) eqn:Hr.
    + apply generate_offer_customer. assumption.
    + apply generate_offer_planner. assumption.
Qed.

Lemma customer_offer_budget (a : NegotiationAgent) (prev : Offer) :
  role a = customer ->
  budget (generate_offer a (Some prev)) =
    Rmin (budget prev * 1.05) (max_budget (preferences a)).
Proof. intros Hr. rewrite generate_offer_customer by assumption. reflexivity. Qed.

Lemma planner_offer_timeline (a : NegotiationAgent) (prev : Offer) :
  role a = wedding_planner ->
  timeline (generate_offer a (Some prev)) =
    Rmax (timeline prev * 0.9) (min_timeline (preferences a)).
Proof. intros Hr. rewrite generate_offer_planner by assumption. reflexivity. Qed.

(** C8, as the code has it.  A customer's next offer never lowers the
    service rank and never exceeds [max_budget]; its budget is at least the
    previous budget when that one lies between 0 and [max_budget].  A
    wedding planner's next offer never goes below [min_timeline]; its
    timeline is at most the previous timeline when that one is neither
    negative nor below [min_timeline]. *)
Theorem concession_monotone :
  forall (a : NegotiationAgent) (prev : Offer),
    match role a with
    | customer =>
        (service_rank (services prev)
           <= service_rank (services (generate_offer a (Some prev))))%nat /\
        budget (generate_offer a (Some prev)) <= max_budget (preferences a) /\
        (0 <= budget prev <= max_budget (preferences a) ->
         budget prev <= budget (generate_offer a (Some prev)))
    | wedding_planner =>
        min_timeline (preferences a)
          <= timeline (generate_offer a (Some prev)) /\
        (0 <= timeline prev ->
         min_timeline (preferences a) <= timeline prev ->
         timeline (generate_offer a (Some prev)) <= timeline prev)
    end.
Proof.
  intros a prev. destruct (role a) eqn:Hr.
  - rewrite (customer_offer_budget a prev Hr).
    repeat split.
    + unfold generate_offer. rewrite Hr. simpl.
      destruct (services prev); simpl; lia.
    + apply Rmin_r.
    + intros [H0 Hmax]. apply Rmin_glb; lra.
  - rewrite (planner_offer_timeline a prev Hr).
    split.
    + apply Rmax_r.
    + intros H0 Hmin. apply Rmax_lub; lra.
Qed.

(** C8 fails as stated.  The planner of [main], whose [min_timeline] is 3,
    answers an offer with timeline 2 by one with timeline 3, which is
    longer; the customer of [main], whose [max_budget] is 50000, answers an
    offer with budget 60000 by one with budget 50000, which is lower. *)
Lemma concession_not_monotone :
  timeline (generate_offer main_planner (Some (mkOffer 15000 Standard 2))) = 3
  /\ ~ (timeline (generate_offer main_planner
                    (Some (mkOffer 15000 Standard 2)))
        <= timeline (mkOffer 15000 Standard 2))
  /\ budget (generate_offer main_customer (Some (mkOffer 60000 Standard 6)))
     = 50000
  /\ ~ (budget (generate_offer main_customer
                  (Some (mkOffer 60000 Standard 6)))
        >= budget (mkOffer 60000 Standard 6)).
Proof.
  assert (Ht : timeline (generate_offer main_planner
                           (Some (mkOffer 15000 Standard 2))) = 3).
  { rewrite planner_offer_timeline by reflexivity. simpl.
    unfold Rmax. destruct (Rle_dec (2 * 0.9) 3); lra. }
  assert (Hb : budget (generate_offer main_customer
                         (Some (mkOffer 60000 Standard 6))) = 50000).
  { rewrite customer_offer_budget by reflexivity. simpl.
    unfold Rmin. destruct (Rle_dec (60000 * 1.05) 50000); lra. }
  rewrite Ht, Hb. simpl. repeat split; lra.
Qed.

(** A run of C8 on the preferences of [main]: both conditional parts apply to
    the offers the two agents of [main] exchange. *)
Lemma concession_monotone_witness :
  (15000 <= budget (generate_offer main_customer
                      (Some (mkOffer 15000 Standard 6))))
  /\ (timeline (generate_offer main_planner (Some (mkOffer 15000 Standard 6)))
      <= 6).
Proof.
  split.
  - pose proof (concession_monotone main_customer (mkOffer 15000 Standard 6))
      as H.
    simpl in H. destruct H as (_ & _ & H). apply H. lra.
  - pose proof (concession_monotone main_planner (mkOffer 15000 Standard 6))
      as H.
    simpl in H. destruct H as (_ & H). apply H; lra.
Defined.

(** ** Budget utility *)

Lemma logistic_decreasing (x y : R) :
  x < y -> 1 / (1 + exp y) < 1 / (1 + exp x).
Proof.
  intros H. pose proof (exp_increasing x y H) as He.
  pose proof (exp_pos x) as Hx.
  unfold Rdiv. rewrite !Rmult_1_l.
  apply Rinv_lt_contravar.
  - apply Rmult_lt_0_compat; lra.
  - lra.
Qed.

Lemma logistic_half (x : R) : 1 / (1 + exp x) = 0.5 <-> x = 0.
Proof.
  pose proof (exp_pos x) as Hx. split.
  - intros H. apply exp_inv. rewrite exp_0.
    assert (Hne : 1 + exp x <> 0) by lra.
    apply (f_equal (fun z => z * (1 + exp x))) in H.
    unfold Rdiv in H. rewrite Rmult_assoc, Rinv_l in H by assumption.
    lra.
  - intros ->. rewrite exp_0. lra.
Qed.

Lemma logistic_le (x y : R) : x <= y -> 1 / (1 + exp y) <= 1 / (1 + exp x).
Proof.
  intros [H | ->]; [left; apply logistic_decreasing; assumption | lra].
Qed.

Lemma ln_le_compat (x y : R) : 0 < x -> x <= y -> ln x <= ln y.
Proof.
  intros Hx [H | ->]; [left; apply ln_increasing; assumption | lra].
Qed.

(** C6, as the code has it.  For a customer and a budget whose quotient
    [(budget - min_budget) / 5000] is at most 700, the budget utility is the
    logistic [1 / (1 + exp ((budget - min_budget) / 5000))].  Wherever it
    is returned it never grows with the budget, it is 0.5 at
    [budget = min_budget], at most 0.5 above and at least 0.5 below. *)
Theorem customer_budget_utility_logistic :
  forall a : NegotiationAgent,
    role a = customer ->
    (forall b : R,
        (b - min_budget (preferences a)) / 5000 <= 700 ->
        calculate_budget_utility a b =
          Ok (1 / (1 + exp ((b - min_budget (preferences a)) / 5000)))) /\
    (forall b1 b2 u1 u2 : R,
        b1 <= b2 ->
        calculate_budget_utility a b1 = Ok u1 ->
        calculate_budget_utility a b2 = Ok u2 ->
        u2 <= u1) /\
    calculate_budget_utility a (min_budget (preferences a)) = Ok 0.5 /\
    (forall b u : R,
        calculate_budget_utility a b = Ok u ->
        (min_budget (preferences a) <= b -> u <= 0.5) /\
        (b <= min_budget (preferences a) -> 0.5 <= u)).
Proof.
  intros a Hr.
  assert (Hhalf : calculate_budget_utility a (min_budget (preferences a))
                  = Ok 0.5).
  { rewrite customer_budget_utility_eq by (assumption || lra).
    f_equal. apply logistic_half. lra. }
  assert (Hmono : forall b1 b2 u1 u2 : R,
             b1 <= b2 ->
             calculate_budget_utility a b1 = Ok u1 ->
             calculate_budget_utility a b2 = Ok u2 ->
             u2 <= u1).
  { intros b1 b2 u1 u2 Hle H1 H2.
    apply customer_budget_utility_inv in H1 as [_ ->]; [|assumption].
    apply customer_budget_utility_inv in H2 as [_ ->]; [|assumption].
    apply logistic_le. lra. }
  split; [|split; [exact Hmono | split; [exact Hhalf|]]].
  - intros b Hq. apply customer_budget_utility_eq; assumption.
  - intros b u Hu. split; intros Hb.
    + exact (Hmono _ _ _ _ Hb Hhalf Hu).
    + exact (Hmono _ _ _ _ Hb Hu Hhalf).
Qed.

(** C6 on the customer of [main]: at [min_budget], 10000, the budget utility
    is 0.5, and the budget 15000 of the opening offer is worth at most as
    much. *)
Lemma customer_budget_utility_logistic_witness :
  calculate_budget_utility main_customer 10000 = Ok 0.5 /\
  (forall u, calculate_budget_utility main_customer 15000 = Ok u -> u <= 0.5).
Proof.
  pose proof (customer_budget_utility_logistic main_customer eq_refl)
    as (_ & _ & Hhalf & Hside).
  split.
  - exact Hhalf.
  - intros u Hu. destruct (Hside 15000 u Hu) as [H _]. apply H. simpl. lra.
Defined.

(** C6 fails as stated.  For the customer of [main], whose [min_budget] is
    10000, the budget 3610000 has no utility: the quotient is 720 and
    [math.exp] raises [OverflowError]. *)
Lemma customer_budget_utility_overflows :
  role main_customer = customer /\
  calculate_budget_utility main_customer 3610000 = Raise OverflowError /\
  calculate_budget_utility main_customer 3610000
    <> Ok (1 / (1 + exp ((3610000
                          - min_budget (preferences main_customer))
                         / 5000))).
Proof.
  assert (H : calculate_budget_utility main_customer 3610000
              = Raise OverflowError).
  { apply customer_budget_utility_overflow; [reflexivity|].
    apply exp_overflows. simpl. lra. }
  split; [reflexivity|]. split; [exact H|].
  rewrite H. discriminate.
Qed.




(** ** The loop, one iteration at a time *)

Lemma negotiation_loop_done s o cur resp out :
  (max_rounds s <= current_round s)%nat ->
  negotiation_loop s o cur resp out = (Returned None, s, out ++ [PrintFailed]).
Proof.
  intros H. simp negotiation_loop.
  destruct (lt_dec (current_round s) (max_rounds s)) as [Hlt|Hge]; simpl.
  - lia.
  - reflexivity.
Qed.

Lemma negotiation_loop_step s o cur resp out :
  (current_round s < max_rounds s)%nat ->
  negotiation_loop s o cur resp out =
    match evaluate_offer resp o with
    | Raise e =>
        (Raised e, begin_round s, out ++ [PrintRound (current_round s + 1)])
    | Ok true =>
        (Returned (Some o), record_round s cur o true,
         out ++ [PrintRound (current_round s + 1);
                 PrintEvaluation (role cur) o true;
                 PrintAgreement o (current_round s + 1)])
    | Ok false =>
        negotiation_loop (record_round s cur o false)
          (generate_offer cur (Some o)) resp cur
          (out ++ [PrintRound (current_round s + 1);
                   PrintEvaluation (role cur) o false])
    end.
Proof.
  intros H. rewrite negotiation_loop_equation_1.
  destruct (lt_dec (current_round s) (max_rounds s)) as [Hlt|Hge].
  - unfold negotiation_loop_unfold_clause_1. cbv zeta.
    destruct (evaluate_offer resp o) as [[|]|e];
      unfold record_round, begin_round; simpl current_round;
      rewrite <- ?app_assoc; reflexivity.
  - lia.
Qed.

Section LoopInduction.

Variable P : NegotiationSimulation -> Offer -> NegotiationAgent ->
             NegotiationAgent -> list Output ->
             Outcome * NegotiationSimulation * list Output -> Prop.

Hypothesis P_exhausted : forall s o cur resp out,
  (max_rounds s <= current_round s)%nat ->
  P s o cur resp out (Returned None, s, out ++ [PrintFailed]).

Hypothesis P_raised : forall s o cur resp out e,
  (current_round s < max_rounds s)%nat ->
  evaluate_offer resp o = Raise e ->
  P s o cur resp out
    (Raised e, begin_round s, out ++ [PrintRound (current_round s + 1)]).

Hypothesis P_agreed : forall s o cur resp out,
  (current_round s < max_rounds s)%nat ->
  evaluate_offer resp o = Ok true ->
  P s o cur resp out
    (Returned (Some o), record_round s cur o true,
     out ++ [PrintRound (current_round s + 1);
             PrintEvaluation (role cur) o true;
             PrintAgreement o (current_round s + 1)]).

Hypothesis P_rejected : forall s o cur resp out res,
  (current_round s < max_rounds s)%nat ->
  evaluate_offer resp o = Ok false ->
  P (record_round s cur o false) (generate_offer cur (Some o)) resp cur
    (out ++ [PrintRound (current_round s + 1);
             PrintEvaluation (role cur) o false]) res ->
  P s o cur resp out res.

Lemma negotiation_loop_ind s o cur resp out :
  P s o cur resp out (negotiation_loop s o cur resp out).
Proof.
  remember (max_rounds s - current_round s)%nat as n eqn:Hn.
  revert s o cur resp out Hn.
  induction n as [|n IH]; intros s o cur resp out Hn.
  - rewrite negotiation_loop_done by lia. apply P_exhausted. lia.
  - assert (Hlt : (current_round s < max_rounds s)%nat) by lia.
    rewrite (negotiation_loop_step _ _ _ _ _ Hlt).
    destruct (evaluate_offer resp o) as [[|]|e] eqn:He.
    + apply P_agreed; assumption.
    + apply P_rejected; try assumption.
      apply IH. simpl. lia.
    + apply P_raised; assumption.
Qed.

End LoopInduction.

(** ** What a run leaves behind *)

(** The loop keeps the two agents and [max_rounds]. *)
Lemma negotiation_loop_frame s o cur resp out :
  let s' := state_of (negotiation_loop s o cur resp out) in
  sim_customer s' = sim_customer s /\
  sim_wedding_planner s' = sim_wedding_planner s /\
  max_rounds s' = max_rounds s.
Proof.
  cbv zeta.
  apply (negotiation_loop_ind
    (fun s o cur resp out res =>
       sim_customer (state_of res) = sim_customer s /\
       sim_wedding_planner (state_of res) = sim_wedding_planner s /\
       max_rounds (state_of res) = max_rounds s)); clear; simpl; intros;
    repeat split; try tauto.
Qed.

(** The records a run appends form a chain from the loop's variables. *)
Lemma negotiation_loop_history s o cur resp out :
  exists rest,
    negotiation_history (state_of (negotiation_loop s o cur resp out)) =
      negotiation_history s ++ rest /\
    round_chain (current_round s) cur resp o rest.
Proof.
  apply (negotiation_loop_ind
    (fun s o cur resp out res =>
       exists rest,
         negotiation_history (state_of res) = negotiation_history s ++ rest /\
         round_chain (current_round s) cur resp o rest)); clear.
  - intros s o cur resp out _. exists []. split.
    + simpl. rewrite app_nil_r. reflexivity.
    + constructor.
  - intros s o cur resp out e _ _. exists []. split.
    + simpl. rewrite app_nil_r. reflexivity.
    + constructor.
  - intros s o cur resp out _ He.
    exists [mkRoundInfo (S (current_round s)) (role cur) o true]. split.
    + simpl. rewrite Nat.add_1_r. reflexivity.
    + constructor; [assumption | constructor].
  - intros s o cur resp out res _ He (rest & Hh & Hc).
    exists (mkRoundInfo (S (current_round s)) (role cur) o false :: rest).
    split.
    + rewrite Hh. simpl. rewrite <- app_assoc, Nat.add_1_r. reflexivity.
    + constructor; [assumption|].
      simpl in Hc. rewrite Nat.add_1_r in Hc. exact Hc.
Qed.

(** Round counter, history and output move together. *)
Lemma negotiation_loop_counts s o cur resp out :
  let res := negotiation_loop s o cur resp out in
  (current_round s <= current_round (state_of res))%nat /\
  (current_round s <= max_rounds s ->
   current_round (state_of res) <= max_rounds s)%nat /\
  (count_rounds (output_of res) + current_round s
   = count_rounds out + current_round (state_of res))%nat /\
  (count_evaluations (output_of res) + length (negotiation_history s)
   = count_evaluations out + length (negotiation_history (state_of res)))%nat /\
  (length (negotiation_history (state_of res)) + current_round s
     + match outcome_of res with Raised _ => 1 | Returned _ => 0 end
   = length (negotiation_history s) + current_round (state_of res))%nat.
Proof.
  cbv zeta.
  assert (Hcr : forall l l', count_rounds (l ++ l')
                             = (count_rounds l + count_rounds l')%nat).
  { induction l as [|[] l IH]; intros; simpl; rewrite ?IH; reflexivity. }
  assert (Hce : forall l l', count_evaluations (l ++ l')
                  = (count_evaluations l + count_evaluations l')%nat).
  { induction l as [|[] l IH]; intros; simpl; rewrite ?IH; reflexivity. }
  apply (negotiation_loop_ind
    (fun s o cur resp out res =>
      (current_round s <= current_round (state_of res))%nat /\
      (current_round s <= max_rounds s ->
       current_round (state_of res) <= max_rounds s)%nat /\
      (count_rounds (output_of res) + current_round s
       = count_rounds out + current_round (state_of res))%nat /\
      (count_evaluations (output_of res) + length (negotiation_history s)
       = count_evaluations out
         + length (negotiation_history (state_of res)))%nat /\
      (length (negotiation_history (state_of res)) + current_round s
         + match outcome_of res with Raised _ => 1 | Returned _ => 0 end
       = length (negotiation_history s) + current_round (state_of res))%nat));
    clear - Hcr Hce.
  - intros; unfold output_of, state_of, outcome_of; simpl.
    rewrite Hcr, Hce. simpl. lia.
  - intros; unfold output_of, state_of, outcome_of; simpl.
    rewrite Hcr, Hce. simpl. lia.
  - intros; unfold output_of, state_of, outcome_of; simpl.
    rewrite Hcr, Hce, length_app. simpl. lia.
  - intros s o cur resp out res Hlt He. simpl.
    rewrite Hcr, Hce, length_app. simpl. lia.
Qed.

(** How the run ended shows in the records it appended: every verdict but
    the last is a rejection, and the last one is an acceptance exactly when
    an offer is returned. *)
Lemma negotiation_loop_verdicts s o cur resp out :
  let res := negotiation_loop s o cur resp out in
  exists rest,
    negotiation_history (state_of res) = negotiation_history s ++ rest /\
    match outcome_of res with
    | Returned None =>
        (max_rounds s <= current_round (state_of res))%nat /\
        Forall (fun r => accepted r = false) rest
    | Returned (Some agreed) =>
        exists earlier r,
          rest = earlier
                 ++ [mkRoundInfo (current_round (state_of res)) r agreed true]
          /\ Forall (fun r => accepted r = false) earlier
    | Raised _ => Forall (fun r => accepted r = false) rest
    end.
Proof.
  cbv zeta.
  apply (negotiation_loop_ind
    (fun s o cur resp out res =>
       exists rest,
         negotiation_history (state_of res) = negotiation_history s ++ rest /\
         match outcome_of res with
         | Returned None =>
             (max_rounds s <= current_round (state_of res))%nat /\
             Forall (fun r => accepted r = false) rest
         | Returned (Some agreed) =>
             exists earlier r,
               rest = earlier
                      ++ [mkRoundInfo (current_round (state_of res)) r
                                      agreed true]
               /\ Forall (fun r => accepted r = false) earlier
         | Raised _ => Forall (fun r => accepted r = false) rest
         end)); clear.
  - intros s o cur resp out H. exists []. simpl.
    rewrite app_nil_r. repeat split; [assumption | constructor].
  - intros s o cur resp out e _ _. exists []. simpl.
    rewrite app_nil_r. repeat split. constructor.
  - intros s o cur resp out _ _. eexists. simpl. split; [reflexivity|].
    exists [], (role cur). split; [reflexivity | constructor].
  - intros s o cur resp out res _ _ (rest & Hh & Hv).
    exists (mkRoundInfo (current_round s + 1) (role cur) o false :: rest).
    split.
    + rewrite Hh. simpl. rewrite <- app_assoc. reflexivity.
    + destruct (outcome_of res) as [[agreed|]|e].
      * destruct Hv as (earlier & r & -> & Hf).
        exists (mkRoundInfo (current_round s + 1) (role cur) o false
                  :: earlier), r.
        split; [reflexivity | constructor; [reflexivity | assumption]].
      * destruct Hv as [Hm Hf]. simpl in Hm. split; [assumption|].
        constructor; [reflexivity | assumption].
      * constructor; [reflexivity | assumption].
Qed.

(** An offer that both agents reject and neither changes is rejected until
    the rounds run out. *)
Lemma negotiation_loop_standstill s o cur resp out :
  evaluate_offer resp o = Ok false ->
  evaluate_offer cur o = Ok false ->
  generate_offer cur (Some o) = o ->
  generate_offer resp (Some o) = o ->
  outcome_of (negotiation_loop s o cur resp out) = Returned None.
Proof.
  remember (max_rounds s - current_round s)%nat as n eqn:Hn.
  revert s cur resp out Hn.
  induction n as [|n IH]; intros s cur resp out Hn Hr Hc Hgc Hgr.
  - rewrite negotiation_loop_done by lia. reflexivity.
  - rewrite negotiation_loop_step by lia. rewrite Hr, Hgc.
    apply IH; try assumption. simpl. lia.
Qed.

(** ** Reading a chain of rounds *)

Lemma evaluator_succ (a b : NegotiationAgent) (k : nat) :
  evaluator a b (S k) = evaluator b a k.
Proof.
  unfold evaluator. rewrite Nat.even_succ, <- Nat.negb_even.
  destruct (Nat.even k); reflexivity.
Qed.

Lemma round_chain_rounds n cur resp o rest :
  round_chain n cur resp o rest ->
  map round rest = seq (S n) (length rest).
Proof.
  induction 1 as [|n cur resp o b rest He Hc IH]; simpl.
  - reflexivity.
  - rewrite IH. reflexivity.
Qed.

Lemma round_chain_nth n cur resp o rest :
  round_chain n cur resp o rest ->
  forall k r,
    nth_error rest k = Some r ->
    round r = S (n + k) /\
    offering_agent r = role (evaluator cur resp k) /\
    evaluate_offer (evaluator resp cur k) (offer r) = Ok (accepted r) /\
    match k with
    | O => offer r = o
    | S j =>
        exists r0, nth_error rest j = Some r0 /\
                   offer r = generate_offer (evaluator resp cur k)
                                            (Some (offer r0))
    end.
Proof.
  induction 1 as [|n cur resp o b rest He Hc IH]; intros k r Hk.
  - destruct k; discriminate.
  - destruct k as [|k]; simpl in Hk.
    + injection Hk as <-. simpl. rewrite Nat.add_0_r. repeat split.
      exact He.
    + destruct (IH k r Hk) as (Hround & Hrole & Heval & Hoffer).
      rewrite !evaluator_succ. repeat split; try assumption.
      * rewrite Hround. lia.
      * destruct k as [|j].
        -- eexists. split; [reflexivity|]. simpl. exact Hoffer.
        -- destruct Hoffer as (r0 & Hr0 & Hoffer).
           exists r0. split; [exact Hr0 | exact Hoffer].
Qed.

(** ** A customer at its own minimum budget *)

Lemma customer_utility_at_min_budget (c : NegotiationAgent) (o : Offer) :
  role c = customer ->
  max_timeline (preferences c) <> 0 ->
  budget o = min_budget (preferences c) ->
  services o = Premium ->
  timeline o = preferred_timeline (preferences c) ->
  calculate_total_utility c o = Ok 0.75.
Proof.
  intros Hr Hmax Hb Hs Ht.
  assert (Hq : (budget o - min_budget (preferences c)) / 5000 <= 700)
    by (rewrite Hb; lra).
  rewrite (total_utility_ok c o _ _
             (customer_budget_utility_eq c (budget o) Hr Hq)
             (customer_timeline_utility_eq c (timeline o) Hr Hmax)).
  f_equal. unfold calculate_services_utility.
  rewrite Hr, Hb, Hs, Ht. simpl.
  replace ((min_budget (preferences c) - min_budget (preferences c)) / 5000)
    with 0 by lra.
  unfold Rdiv at 2. rewrite Rminus_diag, Rmult_0_l, Rabs_R0, exp_0. lra.
Qed.

Lemma customer_rejects_at_min_budget (c : NegotiationAgent) (o : Offer) :
  role c = customer ->
  max_timeline (preferences c) <> 0 ->
  budget o = min_budget (preferences c) ->
  services o = Premium ->
  timeline o = preferred_timeline (preferences c) ->
  evaluate_offer c o = Ok false.
Proof.
  intros Hr Hmax Hb Hs Ht.
  rewrite (evaluate_offer_ok c o 0.75)
    by (apply customer_utility_at_min_budget; assumption).
  f_equal. apply Rgeb_false. unfold threshold. rewrite Hr. lra.
Qed.

(** A loop that has rounds left runs at least one. *)
Lemma negotiation_loop_progress s o cur resp out :
  (current_round s < max_rounds s)%nat ->
  (current_round s
   < current_round (state_of (negotiation_loop s o cur resp out)))%nat.
Proof.
  intros Hlt. rewrite negotiation_loop_step by assumption.
  destruct (evaluate_offer resp o) as [[|]|e]; simpl; try lia.
  match goal with
  | |- context [negotiation_loop ?s1 ?o1 ?cur1 ?resp1 ?out1] =>
      destruct (negotiation_loop_counts s1 o1 cur1 resp1 out1) as (Hle & _)
  end.
  simpl in Hle. lia.
Qed.

(** When the customer rejects its own opening offer, the first record says
    so and the run moves on to a second round. *)
Lemma run_negotiation_first_rejection (c p : NegotiationAgent) :
  evaluate_offer c (generate_offer c None) = Ok false ->
  let res := run_negotiation (init_simulation c p) in
  (exists rest,
      negotiation_history (state_of res) =
        mkRoundInfo 1 (role p) (generate_offer c None) false :: rest) /\
  (2 <= current_round (state_of res))%nat.
Proof.
  intros He. cbv zeta. unfold run_negotiation. simpl sim_customer.
  simpl sim_wedding_planner. cbv zeta.
  rewrite negotiation_loop_step by (simpl; lia). rewrite He.
  set (s1 := record_round (init_simulation c p) p (generate_offer c None)
                          false).
  match goal with
  | |- context [negotiation_loop s1 ?o ?cur ?resp ?out] =>
      destruct (negotiation_loop_history s1 o cur resp out) as (rest & Hh & _);
      pose proof (negotiation_loop_progress s1 o cur resp out) as Hlt
  end.
  split.
  - exists rest. rewrite Hh. reflexivity.
  - assert (H1 : current_round s1 = 1%nat) by reflexivity.
    assert (H2 : max_rounds s1 = 10%nat) by reflexivity. lia.
Qed.

(** C2, as the code has it.  For a customer with
    [min_budget = optimal_budget], Premium as optimal services and
    [optimal_timeline = preferred_timeline] (and a [max_timeline] that is not
    zero), the total utility of its own opening offer is 0.75: the logistic
    budget utility is 0.5 at [min_budget].  That is below the threshold 0.8,
    so the customer rejects the offer, round 1 is recorded as a rejection
    and the negotiation goes on to round 2. *)
Theorem scenario_b_opening_offer :
  forall c p : NegotiationAgent,
    role c = customer ->
    min_budget (preferences c) = optimal_budget (preferences c) ->
    optimal_services (preferences c) = Premium ->
    optimal_timeline (preferences c) = preferred_timeline (preferences c) ->
    max_timeline (preferences c) <> 0 ->
    calculate_total_utility c (generate_offer c None) = Ok 0.75 /\
    0.75 < 0.8 /\
    evaluate_offer c (generate_offer c None) = Ok false /\
    (exists rest,
        negotiation_history
          (state_of (run_negotiation (init_simulation c p))) =
        mkRoundInfo 1 (role p) (generate_offer c None) false :: rest) /\
    (2 <= current_round
            (state_of (run_negotiation (init_simulation c p))))%nat.
Proof.
  intros c p Hr Hb Hs Ht Hmax.
  assert (He : evaluate_offer c (generate_offer c None) = Ok false).
  { apply customer_rejects_at_min_budget; simpl; auto. }
  split; [|split; [|split]].
  - apply customer_utility_at_min_budget; simpl; auto.
  - lra.
  - exact He.
  - apply (run_negotiation_first_rejection c p He).
Qed.

Lemma scenario_b_max_timeline :
  max_timeline (preferences scenario_b_customer) <> 0.
Proof. simpl. lra. Qed.

(** C2 on a customer of the scenario, facing the planner of [main]. *)
Lemma scenario_b_opening_offer_witness :
  calculate_total_utility scenario_b_customer
    (generate_offer scenario_b_customer None) = Ok 0.75 /\
  evaluate_offer scenario_b_customer
    (generate_offer scenario_b_customer None) = Ok false.
Proof.
  pose proof (scenario_b_opening_offer scenario_b_customer main_planner
                eq_refl eq_refl eq_refl eq_refl scenario_b_max_timeline)
    as (Hu & _ & He & _).
  split; [exact Hu | exact He].
Defined.

(** C2 fails as stated.  The customer with [min_budget = optimal_budget =
    10000], Premium and [optimal_timeline = preferred_timeline = 6] values its
    opening offer at 0.75, which is neither 1.0 nor at least 0.8, and the
    negotiation with the planner of [main] records round 1 as a rejection. *)
Lemma scenario_b_not_accepted :
  min_budget (preferences scenario_b_customer)
    = optimal_budget (preferences scenario_b_customer) /\
  optimal_services (preferences scenario_b_customer) = Premium /\
  optimal_timeline (preferences scenario_b_customer)
    = preferred_timeline (preferences scenario_b_customer) /\
  calculate_total_utility scenario_b_customer
    (generate_offer scenario_b_customer None) = Ok 0.75 /\
  0.75 <> 1.0 /\
  ~ (0.75 >= 0.8) /\
  evaluate_offer scenario_b_customer
    (generate_offer scenario_b_customer None) = Ok false /\
  exists rest,
    negotiation_history
      (state_of (run_negotiation
                   (init_simulation scenario_b_customer main_planner))) =
    mkRoundInfo 1 wedding_planner (mkOffer 10000 Premium 6) false :: rest.
Proof.
  assert (He : evaluate_offer scenario_b_customer
                 (generate_offer scenario_b_customer None) = Ok false).
  { apply customer_rejects_at_min_budget; try reflexivity.
    apply scenario_b_max_timeline. }
  repeat split; try reflexivity; try lra.
  - apply customer_utility_at_min_budget; try reflexivity.
    apply scenario_b_max_timeline.
  - exact He.
  - apply (run_negotiation_first_rejection scenario_b_customer main_planner He).
Qed.

(** ** Two agents at a standstill *)

Lemma firm_customer_rejects : evaluate_offer firm_customer firm_offer = Ok false.
Proof.
  apply customer_rejects_at_min_budget; try reflexivity. simpl. lra.
Qed.

Lemma firm_planner_rejects : evaluate_offer firm_planner firm_offer = Ok false.
Proof.
  assert (Hb : calculate_budget_utility firm_planner (budget firm_offer)
               = Ok 0).
  { rewrite planner_budget_utility_eq by (reflexivity || simpl; lra).
    simpl. replace (10000 / 10000) with 1 by lra. rewrite ln_1. reflexivity. }
  assert (Ht : calculate_timeline_utility firm_planner (timeline firm_offer)
               = Ok (1 - 6 / 12)).
  { rewrite planner_timeline_utility_eq by (reflexivity || simpl; lra).
    reflexivity. }
  rewrite (evaluate_offer_ok _ _ _ (total_utility_ok _ _ _ _ Hb Ht)).
  f_equal. apply Rgeb_false.
  unfold calculate_services_utility, threshold. simpl. lra.
Qed.

Lemma firm_customer_stays :
  generate_offer firm_customer (Some firm_offer) = firm_offer.
Proof.
  rewrite generate_offer_customer by reflexivity. simpl.
  unfold firm_offer. f_equal.
  unfold Rmin. destruct (Rle_dec (10000 * 1.05) 10000); lra.
Qed.

Lemma firm_planner_stays :
  generate_offer firm_planner (Some firm_offer) = firm_offer.
Proof.
  rewrite generate_offer_planner by reflexivity. simpl.
  unfold firm_offer. f_equal.
  unfold Rmax. destruct (Rle_dec (6 * 0.9) 6); lra.
Qed.

Lemma firm_agents_exhaust :
  outcome_of (run_negotiation (init_simulation firm_customer firm_planner))
  = Returned None.
Proof.
  unfold run_negotiation. cbv zeta.
  apply negotiation_loop_standstill.
  - exact firm_customer_rejects.
  - exact firm_planner_rejects.
  - exact firm_planner_stays.
  - exact firm_customer_stays.
Qed.

(** ** The protocol *)

(** C1.  In every round the agent whose threshold decides is the agent that
    produced the offer under evaluation: the customer evaluates its own
    opening offer in round 1, and in every later round the evaluator is the
    agent that generated the offer from the one of the round before.  The
    record of the round credits the offer to the other role, so the recorded
    offering roles read wedding_planner, customer, wedding_planner, ... from
    round 1 on. *)
Theorem self_evaluation_pattern :
  forall c p : NegotiationAgent,
    role c = customer ->
    role p = wedding_planner ->
    forall (k : nat) (r : RoundInfo),
      let h := negotiation_history
                 (state_of (run_negotiation (init_simulation c p))) in
      nth_error h k = Some r ->
      round r = S k /\
      offer r = generate_offer (evaluator c p k) (previous_offer h k) /\
      evaluate_offer (evaluator c p k) (offer r) = Ok (accepted r) /\
      (accepted r = true <->
       exists u, calculate_total_utility (evaluator c p k) (offer r) = Ok u /\
                 u >= threshold (evaluator c p k)) /\
      role (evaluator c p k)
        = (if Nat.even k then customer else wedding_planner) /\
      offering_agent r = (if Nat.even k then wedding_planner else customer).
Proof.
  intros c p Hc Hp k r h. subst h.
  unfold run_negotiation. cbv zeta.
  change (sim_customer (init_simulation c p)) with c.
  change (sim_wedding_planner (init_simulation c p)) with p.
  destruct (negotiation_loop_history (init_simulation c p)
              (generate_offer c None) p c
              [PrintInitialOffers (generate_offer c None)
                                  (generate_offer p None)])
    as (rest & Hh & Hchain).
  rewrite Hh.
  change (negotiation_history (init_simulation c p) ++ rest) with rest.
  change (current_round (init_simulation c p)) with 0%nat in Hchain.
  intros Hk.
  destruct (round_chain_nth _ _ _ _ _ Hchain k r Hk)
    as (Hround & Hrole & Heval & Hoffer).
  split; [exact Hround|].
  split.
  { destruct k as [|j]; simpl.
    - exact Hoffer.
    - destruct Hoffer as (r0 & Hr0 & Hoffer). rewrite Hr0. exact Hoffer. }
  split; [exact Heval|].
  split.
  { apply evaluate_offer_inv in Heval as (u & Hu & Hacc). rewrite Hacc.
    split.
    - intros Hge. exists u. split; [exact Hu | apply Rgeb_true; exact Hge].
    - intros (u' & Hu' & Hge). rewrite Hu in Hu'. injection Hu' as <-.
      apply Rgeb_true. exact Hge. }
  split.
  - unfold evaluator. destruct (Nat.even k); assumption.
  - rewrite Hrole. unfold evaluator. destruct (Nat.even k); assumption.
Qed.

(** C1 on a run: the customer of scenario B against the planner of [main].
    Round 1 is recorded for the wedding planner although the offer is the
    customer's opening offer and the customer's threshold rejects it. *)
Lemma self_evaluation_pattern_witness :
  exists r,
    nth_error (negotiation_history
                 (state_of (run_negotiation
                    (init_simulation scenario_b_customer main_planner)))) 0
      = Some r /\
    offer r = generate_offer scenario_b_customer None /\
    evaluate_offer scenario_b_customer (offer r) = Ok (accepted r) /\
    offering_agent r = wedding_planner.
Proof.
  assert (He : evaluate_offer scenario_b_customer
                 (generate_offer scenario_b_customer None) = Ok false).
  { apply customer_rejects_at_min_budget; try reflexivity. simpl. lra. }
  destruct (run_negotiation_first_rejection scenario_b_customer main_planner He)
    as ((rest & Hh) & _).
  eexists. split.
  - rewrite Hh. reflexivity.
  - assert (Hk : nth_error
                   (negotiation_history
                      (state_of (run_negotiation
                         (init_simulation scenario_b_customer main_planner))))
                   0
                 = Some (mkRoundInfo 1 (role main_planner)
                           (generate_offer scenario_b_customer None) false)).
    { rewrite Hh. reflexivity. }
    destruct (self_evaluation_pattern scenario_b_customer main_planner
                eq_refl eq_refl 0%nat _ Hk)
      as (_ & Ho & Hev & _ & _ & Hrole).
    split; [exact Ho | split; [exact Hev | exact Hrole]].
Defined.

Lemma offer_after_succ (cur resp : NegotiationAgent) (o : Offer) (n : nat) :
  offer_after cur resp o (S n) =
    generate_offer (evaluator resp cur (S n)) (Some (offer_after cur resp o n)).
Proof.
  revert cur resp o. induction n as [|n IH]; intros cur resp o.
  - reflexivity.
  - change (offer_after cur resp o (S (S n)))
      with (offer_after resp cur (generate_offer cur (Some o)) (S n)).
    rewrite IH. rewrite (evaluator_succ resp cur (S n)). reflexivity.
Qed.

Lemma round_chain_offer n cur resp o rest :
  round_chain n cur resp o rest ->
  forall k r, nth_error rest k = Some r -> offer r = offer_after cur resp o k.
Proof.
  induction 1 as [|n cur resp o b rest He Hc IH]; intros k r Hk.
  - destruct k; discriminate.
  - destruct k as [|k]; simpl in Hk.
    + injection Hk as <-. reflexivity.
    + simpl. apply IH. exact Hk.
Qed.

(** The history of a run from a fresh simulation, as a chain. *)
Lemma run_negotiation_chain (c p : NegotiationAgent) :
  round_chain 0 p c (generate_offer c None)
    (negotiation_history (state_of (run_negotiation (init_simulation c p)))).
Proof.
  unfold run_negotiation. cbv zeta.
  change (sim_customer (init_simulation c p)) with c.
  change (sim_wedding_planner (init_simulation c p)) with p.
  destruct (negotiation_loop_history (init_simulation c p)
              (generate_offer c None) p c
              [PrintInitialOffers (generate_offer c None)
                                  (generate_offer p None)])
    as (rest & Hh & Hchain).
  rewrite Hh. exact Hchain.
Qed.

Lemma negotiation_loop_agreement s o cur resp out agreed :
  outcome_of (negotiation_loop s o cur resp out) = Returned (Some agreed) <->
  exists k,
    (k < max_rounds s - current_round s)%nat /\
    agreed = offer_after cur resp o k /\
    evaluate_offer (evaluator resp cur k) (offer_after cur resp o k)
      = Ok true /\
    forall j, (j < k)%nat ->
      evaluate_offer (evaluator resp cur j) (offer_after cur resp o j)
        = Ok false.
Proof.
  remember (max_rounds s - current_round s)%nat as n eqn:Hn.
  revert s o cur resp out Hn.
  induction n as [|n IH]; intros s o cur resp out Hn.
  - rewrite negotiation_loop_done by lia. split.
    + discriminate.
    + intros (k & Hk & _). lia.
  - rewrite negotiation_loop_step by lia.
    destruct (evaluate_offer resp o) as [[|]|e] eqn:He.
    + split.
      * intros H. injection H as <-. exists 0%nat.
        repeat split; try lia. exact He.
      * intros (k & _ & -> & Hacc & Hrej). destruct k as [|k].
        -- reflexivity.
        -- specialize (Hrej 0%nat (Nat.lt_0_succ k)).
           change (evaluate_offer resp o = Ok false) in Hrej. congruence.
    + rewrite (IH (record_round s cur o false)) by (simpl; lia). split.
      * intros (k & Hk & -> & Hacc & Hrej). exists (S k).
        split; [lia|]. split; [reflexivity|]. split.
        -- rewrite evaluator_succ. exact Hacc.
        -- intros [|j] Hj; [exact He|].
           rewrite evaluator_succ. apply Hrej. lia.
      * intros (k & Hk & -> & Hacc & Hrej). destruct k as [|k].
        -- change (evaluate_offer resp o = Ok true) in Hacc. congruence.
        -- exists k. split; [lia|]. split; [reflexivity|]. split.
           ++ rewrite evaluator_succ in Hacc. exact Hacc.
           ++ intros j Hj. specialize (Hrej (S j)).
              rewrite evaluator_succ in Hrej. apply Hrej. lia.
    + split.
      * discriminate.
      * intros (k & _ & _ & Hacc & Hrej). destruct k as [|k].
        -- change (evaluate_offer resp o = Ok true) in Hacc. congruence.
        -- specialize (Hrej 0%nat (Nat.lt_0_succ k)).
           change (evaluate_offer resp o = Ok false) in Hrej. congruence.
Qed.

Lemma negotiation_loop_no_agreement s o cur resp out :
  outcome_of (negotiation_loop s o cur resp out) = Returned None <->
  forall j, (j < max_rounds s - current_round s)%nat ->
    evaluate_offer (evaluator resp cur j) (offer_after cur resp o j)
      = Ok false.
Proof.
  remember (max_rounds s - current_round s)%nat as n eqn:Hn.
  revert s o cur resp out Hn.
  induction n as [|n IH]; intros s o cur resp out Hn.
  - rewrite negotiation_loop_done by lia. split.
    + intros _ j Hj. lia.
    + reflexivity.
  - rewrite negotiation_loop_step by lia.
    destruct (evaluate_offer resp o) as [[|]|e] eqn:He.
    + split; [discriminate|].
      intros H. specialize (H 0%nat (Nat.lt_0_succ n)).
      change (evaluate_offer resp o = Ok false) in H. congruence.
    + rewrite (IH (record_round s cur o false)) by (simpl; lia). split.
      * intros H [|j] Hj; [exact He|].
        rewrite evaluator_succ. apply H. lia.
      * intros H j Hj. specialize (H (S j)).
        rewrite evaluator_succ in H. apply H. lia.
    + split; [discriminate|].
      intros H. specialize (H 0%nat (Nat.lt_0_succ n)).
      change (evaluate_offer resp o = Ok false) in H. congruence.
Qed.

Lemma customer_total_utility_zero_max (a : NegotiationAgent) (o : Offer) :
  role a = customer ->
  (budget o - min_budget (preferences a)) / 5000 <= 700 ->
  max_timeline (preferences a) = 0 ->
  calculate_total_utility a o = Raise ZeroDivisionError.
Proof.
  intros Hr Hq Hm. unfold calculate_total_utility.
  rewrite customer_budget_utility_eq by assumption. simpl.
  unfold calculate_timeline_utility. rewrite Hr, Hm, py_div_zero.
  reflexivity.
Qed.

Lemma zero_max_customer_raises :
  outcome_of (run_negotiation (init_simulation zero_max_customer main_planner))
  = Raised ZeroDivisionError.
Proof.
  unfold run_negotiation. cbv zeta.
  rewrite negotiation_loop_step by (simpl; lia).
  change (sim_customer (init_simulation zero_max_customer main_planner))
    with zero_max_customer.
  unfold evaluate_offer.
  rewrite customer_total_utility_zero_max;
    [reflexivity | reflexivity | simpl; lra | reflexivity].
Qed.

Lemma firm_offers_stay (n : nat) :
  offer_after firm_planner firm_customer firm_offer n = firm_offer /\
  offer_after firm_customer firm_planner firm_offer n = firm_offer.
Proof.
  induction n as [|n [IH1 IH2]]; [split; reflexivity|].
  cbn [offer_after]. rewrite firm_planner_stays, firm_customer_stays.
  split; assumption.
Qed.

Lemma firm_offers_rejected (j : nat) :
  evaluate_offer (evaluator firm_customer firm_planner j)
    (offer_after firm_planner firm_customer
       (generate_offer firm_customer None) j) = Ok false.
Proof.
  change (generate_offer firm_customer None) with firm_offer.
  rewrite (proj1 (firm_offers_stay j)). unfold evaluator.
  destruct (Nat.even j);
    [exact firm_customer_rejects | exact firm_planner_rejects].
Qed.

(** C4, as the code has it.  A run from a fresh simulation performs at most
    10 evaluation rounds, whatever the two agents are, and ends by returning
    or with the exception of an evaluation.  It returns [None] exactly when
    each of the ten offers of the run is rejected by its evaluator; the round
    counter then stands at [max_rounds = 10] and the history holds one record
    for each of the rounds 1 to 10, all rejections.  When it returns an
    offer, the last record is its acceptance. *)
Theorem run_negotiation_bounded :
  forall c p : NegotiationAgent,
    let res := run_negotiation (init_simulation c p) in
    let h := negotiation_history (state_of res) in
    let offer_of := offer_after p c (generate_offer c None) in
    (current_round (state_of res) <= 10)%nat /\
    count_rounds (output_of res) = current_round (state_of res) /\
    count_evaluations (output_of res) = length h /\
    (length h <= current_round (state_of res))%nat /\
    (forall (k : nat) (r : RoundInfo),
        nth_error h k = Some r ->
        round r = S k /\
        offer r = offer_of k /\
        evaluate_offer (evaluator c p k) (offer_of k) = Ok (accepted r)) /\
    ((forall j, (j < 10)%nat ->
        evaluate_offer (evaluator c p j) (offer_of j) = Ok false) <->
     outcome_of res = Returned None) /\
    (outcome_of res = Returned None ->
     current_round (state_of res) = max_rounds (state_of res) /\
     max_rounds (state_of res) = 10%nat /\
     map round h = seq 1 10 /\
     Forall (fun r => accepted r = false) h) /\
    (forall agreed,
        outcome_of res = Returned (Some agreed) ->
        exists earlier r,
          h = earlier
              ++ [mkRoundInfo (current_round (state_of res)) r agreed true]).
Proof.
  intros c p res h offer_of.
  assert (Hrec : forall (k : nat) (r : RoundInfo),
             nth_error h k = Some r ->
             round r = S k /\
             offer r = offer_of k /\
             evaluate_offer (evaluator c p k) (offer_of k)
               = Ok (accepted r)).
  { intros k r Hk. pose proof (run_negotiation_chain c p) as Hchain.
    destruct (round_chain_nth _ _ _ _ _ Hchain k r Hk)
      as (Hround & _ & He & _).
    pose proof (round_chain_offer _ _ _ _ _ Hchain k r Hk) as Ho.
    fold offer_of in Ho. rewrite Ho in He.
    split; [exact Hround | split; [exact Ho | exact He]]. }
  assert (Hnone : (forall j, (j < 10)%nat ->
                     evaluate_offer (evaluator c p j) (offer_of j)
                       = Ok false) <->
                  outcome_of res = Returned None).
  { subst res offer_of. unfold run_negotiation. cbv zeta.
    change (sim_customer (init_simulation c p)) with c.
    change (sim_wedding_planner (init_simulation c p)) with p.
    symmetry. apply negotiation_loop_no_agreement. }
  revert Hrec Hnone. subst h res offer_of.
  unfold run_negotiation. cbv zeta.
  change (sim_customer (init_simulation c p)) with c.
  change (sim_wedding_planner (init_simulation c p)) with p.
  set (s0 := init_simulation c p).
  set (out0 := [PrintInitialOffers (generate_offer c None)
                                   (generate_offer p None)]).
  set (o0 := generate_offer c None).
  intros Hrec Hnone.
  destruct (negotiation_loop_counts s0 o0 p c out0)
    as (_ & Hmax & Hrounds & Hevals & Hlen).
  destruct (negotiation_loop_frame s0 o0 p c out0) as (_ & _ & Hframe).
  destruct (negotiation_loop_history s0 o0 p c out0) as (rest & Hh & Hchain).
  destruct (negotiation_loop_verdicts s0 o0 p c out0) as (rest' & Hh' & Hv).
  rewrite Hh in Hh'. apply app_inv_head in Hh'. subst rest'.
  change (negotiation_history s0 ++ rest) with rest in Hh.
  change (current_round s0) with 0%nat in *.
  change (max_rounds s0) with 10%nat in *.
  change (negotiation_history s0) with (@nil RoundInfo) in *.
  change (count_rounds out0) with 0%nat in *.
  change (count_evaluations out0) with 0%nat in *.
  simpl length in *.
  set (res := negotiation_loop s0 o0 p c out0) in *.
  rewrite Hh in *.
  split; [lia|]. split; [lia|]. split; [lia|].
  split; [destruct (outcome_of res); lia|].
  split; [exact Hrec|]. split; [exact Hnone|].
  split.
  - intros Ho. rewrite Ho in Hv, Hlen. destruct Hv as [Hge Hall].
    assert (Hcur : current_round (state_of res) = 10%nat) by lia.
    repeat split; try assumption; try lia.
    rewrite (round_chain_rounds _ _ _ _ _ Hchain).
    replace (length rest) with 10%nat by lia. reflexivity.
  - intros agreed Ho. rewrite Ho in Hv.
    destruct Hv as (earlier & r & -> & _). exists earlier, r. reflexivity.
Qed.

(** C4 on the two agents at a standstill: each of the ten offers is
    rejected, so the run returns [None] after round 10 with ten records. *)
Lemma run_negotiation_bounded_witness :
  let res := run_negotiation (init_simulation firm_customer firm_planner) in
  outcome_of res = Returned None /\
  current_round (state_of res) = 10%nat /\
  map round (negotiation_history (state_of res)) = seq 1 10.
Proof.
  pose proof (run_negotiation_bounded firm_customer firm_planner)
    as (_ & _ & _ & _ & _ & Hnone & Hfacts & _).
  assert (Hex : outcome_of
                  (run_negotiation
                     (init_simulation firm_customer firm_planner))
                = Returned None).
  { apply Hnone. intros j _. apply firm_offers_rejected. }
  destruct (Hfacts Hex) as (Hcur & Hmax & Hrounds & _).
  split; [exact Hex | split; [congruence | exact Hrounds]].
Defined.

(** C4 fails as stated.  The customer whose [max_timeline] is 0 has finite
    preferences, and its negotiation with the planner of [main] accepts no
    offer; yet the run does not go on to round 10 and return [None]: the
    first evaluation raises [ZeroDivisionError], with the counter at 1 and
    no record in the history. *)
Lemma run_negotiation_raises_in_round_1 :
  let res := run_negotiation
               (init_simulation zero_max_customer main_planner) in
  outcome_of res = Raised ZeroDivisionError /\
  outcome_of res <> Returned None /\
  current_round (state_of res) = 1%nat /\
  negotiation_history (state_of res) = [].
Proof.
  cbv zeta. unfold run_negotiation. cbv zeta.
  rewrite negotiation_loop_step by (simpl; lia).
  change (sim_customer (init_simulation zero_max_customer main_planner))
    with zero_max_customer.
  unfold evaluate_offer.
  rewrite customer_total_utility_zero_max;
    [| reflexivity | simpl; lra | reflexivity].
  repeat split. discriminate.
Qed.

(** ** The planner's opening offer *)

Lemma same_conduct_refl (a : NegotiationAgent) : same_conduct a a.
Proof. repeat split. Qed.

Lemma with_optimal_same_conduct (a : NegotiationAgent) (b : R)
    (sv : ServiceLevel) (t : R) :
  same_conduct a (with_optimal a b sv t).
Proof. repeat split. Qed.

Lemma negotiation_loop_same_conduct s s' o cur cur' resp resp' out out' :
  max_rounds s = max_rounds s' ->
  current_round s = current_round s' ->
  negotiation_history s = negotiation_history s' ->
  same_conduct cur cur' ->
  same_conduct resp resp' ->
  let res := negotiation_loop s o cur resp out in
  let res' := negotiation_loop s' o cur' resp' out' in
  outcome_of res = outcome_of res' /\
  current_round (state_of res) = current_round (state_of res') /\
  negotiation_history (state_of res) = negotiation_history (state_of res').
Proof.
  cbv zeta.
  remember (max_rounds s - current_round s)%nat as n eqn:Hn.
  revert s s' o cur cur' resp resp' out out' Hn.
  induction n as [|n IH];
    intros s s' o cur cur' resp resp' out out' Hn Hm Hc Hh Hcur Hresp.
  - rewrite (negotiation_loop_done s), (negotiation_loop_done s') by lia.
    repeat split; assumption.
  - rewrite (negotiation_loop_step s), (negotiation_loop_step s') by lia.
    destruct Hcur as (Hrole & Hcur_eval & Hcur_gen).
    destruct Hresp as (Hrole' & Hresp_eval & Hresp_gen).
    rewrite <- Hresp_eval, <- Hcur_gen.
    destruct (evaluate_offer resp o) as [[|]|e].
    + simpl. rewrite Hh, Hc, Hrole. repeat split.
    + apply IH.
      * simpl. lia.
      * exact Hm.
      * simpl. rewrite Hc. reflexivity.
      * simpl. rewrite Hh, Hc, Hrole. reflexivity.
      * repeat split; assumption.
      * repeat split; assumption.
    + simpl. rewrite Hh, Hc. repeat split.
Qed.

(** C9.  The wedding planner's opening offer has no part in the protocol:
    replacing the planner's [optimal_budget], [optimal_services] and
    [optimal_timeline] by anything else leaves the returned result, the round
    counter and the whole negotiation history as they were. *)
Theorem planner_opening_offer_unused :
  forall (c p : NegotiationAgent) (b : R) (sv : ServiceLevel) (t : R),
    let res := run_negotiation (init_simulation c p) in
    let res' := run_negotiation (init_simulation c (with_optimal p b sv t)) in
    outcome_of res = outcome_of res' /\
    current_round (state_of res) = current_round (state_of res') /\
    negotiation_history (state_of res) = negotiation_history (state_of res').
Proof.
  intros c p b sv t. cbv zeta. unfold run_negotiation. cbv zeta.
  change (sim_customer (init_simulation c p)) with c.
  change (sim_customer (init_simulation c (with_optimal p b sv t))) with c.
  change (sim_wedding_planner (init_simulation c p)) with p.
  change (sim_wedding_planner (init_simulation c (with_optimal p b sv t)))
    with (with_optimal p b sv t).
  apply negotiation_loop_same_conduct; try reflexivity.
  - apply with_optimal_same_conduct.
  - apply same_conduct_refl.
Qed.

(** ** A second call *)

(** The state an exhausted first run leaves: the same two agents, and a
    round counter at [max_rounds]. *)
Lemma run_negotiation_exhausted_state (c p : NegotiationAgent) :
  outcome_of (run_negotiation (init_simulation c p)) = Returned None ->
  let s1 := state_of (run_negotiation (init_simulation c p)) in
  sim_customer s1 = c /\
  sim_wedding_planner s1 = p /\
  current_round s1 = max_rounds s1.
Proof.
  unfold run_negotiation. cbv zeta.
  change (sim_customer (init_simulation c p)) with c.
  change (sim_wedding_planner (init_simulation c p)) with p.
  set (s0 := init_simulation c p).
  set (out0 := [PrintInitialOffers (generate_offer c None)
                                   (generate_offer p None)]).
  set (o0 := generate_offer c None).
  intros Hex.
  destruct (negotiation_loop_frame s0 o0 p c out0) as (Hc & Hp & Hm).
  destruct (negotiation_loop_counts s0 o0 p c out0) as (_ & Hmax & _).
  destruct (negotiation_loop_verdicts s0 o0 p c out0) as (rest & _ & Hv).
  rewrite Hex in Hv. destruct Hv as [Hge _].
  repeat split; try assumption.
  rewrite Hm. change (max_rounds s0) with 10%nat in *.
  change (current_round s0) with 0%nat in *. lia.
Qed.

(** C10.  After a first run that ended in exhaustion, the counter still
    stands at [max_rounds]; a second call prints the opening offers and the
    failure message, evaluates nothing, returns [None] and leaves the
    simulation, history included, as it found it. *)
Theorem second_run_returns_at_once :
  forall c p : NegotiationAgent,
    outcome_of (run_negotiation (init_simulation c p)) = Returned None ->
    let s1 := state_of (run_negotiation (init_simulation c p)) in
    current_round s1 = max_rounds s1 /\
    run_negotiation s1 =
      (Returned None, s1,
       [PrintInitialOffers (generate_offer c None) (generate_offer p None);
        PrintFailed]) /\
    negotiation_history (state_of (run_negotiation s1))
      = negotiation_history s1 /\
    count_evaluations (output_of (run_negotiation s1)) = 0%nat.
Proof.
  intros c p Hex s1.
  destruct (run_negotiation_exhausted_state c p Hex) as (Hc & Hp & Hcur).
  fold s1 in Hc, Hp, Hcur.
  assert (Hrun : run_negotiation s1 =
            (Returned None, s1,
             [PrintInitialOffers (generate_offer c None)
                                 (generate_offer p None);
              PrintFailed])).
  { unfold run_negotiation. cbv zeta. rewrite Hc, Hp.
    rewrite negotiation_loop_done by lia. reflexivity. }
  split; [exact Hcur|]. split; [exact Hrun|].
  rewrite Hrun. split; reflexivity.
Qed.

(** C10 on the two agents at a standstill, whose first run is exhausted. *)
Lemma second_run_returns_at_once_witness :
  let s1 := state_of (run_negotiation
                        (init_simulation firm_customer firm_planner)) in
  run_negotiation s1 =
    (Returned None, s1,
     [PrintInitialOffers (generate_offer firm_customer None)
                         (generate_offer firm_planner None);
      PrintFailed]).
Proof.
  pose proof (second_run_returns_at_once firm_customer firm_planner
                firm_agents_exhaust) as (_ & H & _).
  exact H.
Defined.

(** * Further properties of the code *)

(** ** Services and timeline utilities *)

(** X1.  For both roles the services utility follows the desirability of
    the level: a level of higher rank has a strictly higher utility, Premium
    is worth exactly 1 and nothing is worth less than 0.4. *)
Theorem services_utility_follows_rank :
  forall (a : NegotiationAgent) (s1 s2 : ServiceLevel),
    ((service_rank s1 < service_rank s2)%nat <->
     calculate_services_utility a s1 < calculate_services_utility a s2) /\
    0.4 <= calculate_services_utility a s1 <= 1 /\
    (calculate_services_utility a s1 = 1 <-> s1 = Premium).
Proof.
  intros a s1 s2. unfold calculate_services_utility.
  destruct (role a), s1, s2; simpl;
    repeat split; intros; try lia; try lra; try reflexivity;
    try discriminate.
Qed.

(** X2.  A customer whose [max_timeline] is not zero values every timeline
    at most 1 and its preferred timeline exactly 1, and a timeline at most
    as far from the preferred one as another is worth at least as much. *)
Theorem customer_timeline_utility_peak :
  forall a : NegotiationAgent,
    role a = customer ->
    max_timeline (preferences a) <> 0 ->
    (forall t, exists u, calculate_timeline_utility a t = Ok u /\ u <= 1) /\
    calculate_timeline_utility a (preferred_timeline (preferences a))
      = Ok 1 /\
    (forall t1 t2 u1 u2,
        Rabs (t1 - preferred_timeline (preferences a))
          <= Rabs (t2 - preferred_timeline (preferences a)) ->
        calculate_timeline_utility a t1 = Ok u1 ->
        calculate_timeline_utility a t2 = Ok u2 ->
        u2 <= u1).
Proof.
  intros a Hr Hm. split; [|split].
  - intros t. eexists. split.
    + apply customer_timeline_utility_eq; assumption.
    + pose proof (Rabs_pos ((t - preferred_timeline (preferences a))
                            / max_timeline (preferences a))) as Hp.
      lra.
  - rewrite customer_timeline_utility_eq by assumption. f_equal.
    rewrite Rminus_diag. unfold Rdiv. rewrite Rmult_0_l, Rabs_R0. lra.
  - intros t1 t2 u1 u2 Hd H1 H2.
    rewrite customer_timeline_utility_eq in H1, H2 by assumption.
    injection H1 as <-. injection H2 as <-.
    assert (Hq : Rabs ((t1 - preferred_timeline (preferences a))
                       / max_timeline (preferences a))
                 <= Rabs ((t2 - preferred_timeline (preferences a))
                          / max_timeline (preferences a))).
    { unfold Rdiv. rewrite !Rabs_mult. apply Rmult_le_compat_r.
      - apply Rabs_pos.
      - exact Hd. }
    lra.
Qed.

(** X2 on the customer of [main]: its preferred timeline, 6, is worth 1. *)
Lemma customer_timeline_utility_peak_witness :
  calculate_timeline_utility main_customer 6 = Ok 1.
Proof.
  assert (Hm : max_timeline (preferences main_customer) <> 0)
    by (simpl; lra).
  destruct (customer_timeline_utility_peak main_customer eq_refl Hm)
    as (_ & H & _).
  exact H.
Defined.

(** X3.  A wedding planner whose [max_timeline] is positive values a
    timeline the less the longer it is: the utility is
    [1 - timeline / max_timeline], it never grows with the timeline, it is 1
    at timeline 0, 0 at [max_timeline] and negative beyond it. *)
Theorem planner_timeline_utility_decreasing :
  forall a : NegotiationAgent,
    role a = wedding_planner ->
    0 < max_timeline (preferences a) ->
    (forall t,
        calculate_timeline_utility a t
        = Ok (1 - t / max_timeline (preferences a))) /\
    (forall t1 t2 u1 u2,
        t1 <= t2 ->
        calculate_timeline_utility a t1 = Ok u1 ->
        calculate_timeline_utility a t2 = Ok u2 ->
        u2 <= u1) /\
    calculate_timeline_utility a 0 = Ok 1 /\
    calculate_timeline_utility a (max_timeline (preferences a)) = Ok 0 /\
    (forall t u,
        max_timeline (preferences a) < t ->
        calculate_timeline_utility a t = Ok u -> u < 0).
Proof.
  intros a Hr Hm. set (m := max_timeline (preferences a)) in *.
  assert (Hne : m <> 0) by lra.
  assert (Heq : forall t, calculate_timeline_utility a t = Ok (1 - t / m)).
  { intros t. apply planner_timeline_utility_eq; assumption. }
  assert (Hmono : forall t1 t2, t1 < t2 -> t1 / m < t2 / m).
  { intros t1 t2 H. unfold Rdiv. apply Rmult_lt_compat_r; [|assumption].
    apply Rinv_0_lt_compat. assumption. }
  split; [exact Heq|]. split; [|split; [|split]].
  - intros t1 t2 u1 u2 Hle H1 H2. rewrite Heq in H1, H2.
    injection H1 as <-. injection H2 as <-.
    destruct Hle as [Hlt | ->]; [|lra].
    pose proof (Hmono t1 t2 Hlt). lra.
  - rewrite Heq. f_equal. unfold Rdiv. rewrite Rmult_0_l. lra.
  - rewrite Heq. f_equal. unfold Rdiv. rewrite Rinv_r by assumption. lra.
  - intros t u Hlt H. rewrite Heq in H. injection H as <-.
    pose proof (Hmono m t Hlt) as H. unfold Rdiv in H at 1.
    rewrite Rinv_r in H by assumption. lra.
Qed.

(** X3 on the planner of [main], whose [max_timeline] is 12. *)
Lemma planner_timeline_utility_decreasing_witness :
  calculate_timeline_utility main_planner 12 = Ok 0.
Proof.
  assert (Hm : 0 < max_timeline (preferences main_planner)) by (simpl; lra).
  destruct (planner_timeline_utility_decreasing main_planner eq_refl Hm)
    as (_ & _ & _ & H & _).
  exact H.
Defined.

(** ** Exceptions of the acceptance rule *)






(** ** What the acceptance rule lets through *)

Lemma services_utility_le (a : NegotiationAgent) (s1 s2 : ServiceLevel) :
  (service_rank s1 <= service_rank s2)%nat ->
  calculate_services_utility a s1 <= calculate_services_utility a s2.
Proof.
  unfold calculate_services_utility.
  destruct (role a), s1, s2; simpl; intros; try lia; lra.
Qed.

Lemma services_utility_le_1 (a : NegotiationAgent) (s : ServiceLevel) :
  calculate_services_utility a s <= 1.
Proof.
  unfold calculate_services_utility. destruct (role a), s; simpl; lra.
Qed.

Lemma customer_evaluate_offer_eq (a : NegotiationAgent) (o : Offer)
    (verdict : bool) :
  role a = customer ->
  evaluate_offer a o = Ok verdict ->
  max_timeline (preferences a) <> 0 /\
  exp ((budget o - min_budget (preferences a)) / 5000) <= float_max /\
  verdict =
    Rgeb (0.5 * (1 / (1 + exp ((budget o - min_budget (preferences a))
                               / 5000)))
          + 0.3 * calculate_services_utility a (services o)
          + 0.2 * (1 - Rabs ((timeline o
                              - preferred_timeline (preferences a))
                             / max_timeline (preferences a))))
         0.8.
Proof.
  intros Hr He.
  apply evaluate_offer_inv in He as (u & Hu & ->).
  apply total_utility_inv in Hu as (bu & tu & Hb & Ht & ->).
  apply customer_budget_utility_inv in Hb as [Hfit ->]; [|assumption].
  apply customer_timeline_utility_inv in Ht as [Hm ->]; [|assumption].
  split; [exact Hm|]. split; [exact Hfit|].
  unfold threshold. rewrite Hr. reflexivity.
Qed.

Lemma customer_acceptance_budget_bound (a : NegotiationAgent) (o : Offer) :
  role a = customer ->
  evaluate_offer a o = Ok true ->
  budget o <= min_budget (preferences a) - 5000 / 3.
Proof.
  intros Hr He.
  apply customer_evaluate_offer_eq in He as (Hm & _ & He); [|assumption].
  symmetry in He. apply Rgeb_true in He.
  set (x := (budget o - min_budget (preferences a)) / 5000) in *.
  pose proof (services_utility_le_1 a (services o)) as Hs.
  pose proof (Rabs_pos ((timeline o - preferred_timeline (preferences a))
                        / max_timeline (preferences a))) as Ht.
  pose proof (exp_pos x) as Hx. pose proof (exp_ineq1_le x) as Hx1.
  assert (Hbu : 0.6 <= 1 / (1 + exp x)) by lra.
  assert (Hexp : exp x <= 2 / 3).
  { apply (Rmult_le_compat_r (1 + exp x)) in Hbu; [|lra].
    unfold Rdiv in Hbu at 1. rewrite Rmult_1_l, Rinv_l in Hbu by lra. lra. }
  assert (Hlin : x <= - (1 / 3)) by lra.
  unfold x in Hlin. lra.
Qed.

(** X5.  A customer accepts only offers priced well below its
    [min_budget]: whatever the services and the timeline, an accepted offer
    has a budget of at most [min_budget - 5000 / 3].  In particular no offer
    at or above [min_budget] is ever accepted. *)
Theorem customer_accepts_only_below_min_budget :
  forall (a : NegotiationAgent) (o : Offer),
    role a = customer ->
    evaluate_offer a o = Ok true ->
    budget o <= min_budget (preferences a) - 5000 / 3 /\
    budget o < min_budget (preferences a).
Proof.
  intros a o Hr He.
  pose proof (customer_acceptance_budget_bound a o Hr He) as H.
  split; lra.
Qed.

Lemma main_customer_accepts_free_offer :
  evaluate_offer main_customer (mkOffer 0 Premium 6) = Ok true.
Proof.
  assert (Hm : max_timeline (preferences main_customer) <> 0)
    by (simpl; lra).
  assert (Hq : (budget (mkOffer 0 Premium 6)
                - min_budget (preferences main_customer)) / 5000 <= 700)
    by (simpl; lra).
  rewrite (evaluate_offer_ok main_customer _ _
             (total_utility_ok main_customer _ _ _
                (customer_budget_utility_eq main_customer _ eq_refl Hq)
                (customer_timeline_utility_eq main_customer _ eq_refl Hm))).
  f_equal. apply Rgeb_true.
  unfold calculate_services_utility, threshold. simpl.
  replace ((0 - 10000) / 5000) with (Ropp 2) by lra.
  replace ((6 - 6) / 12) with 0 by lra. rewrite Rabs_R0.
  pose proof (exp_ineq1_le 2) as H2. pose proof (exp_pos (Ropp 2)) as Hp.
  assert (Hinv : exp (Ropp 2) <= 1 / 3).
  { rewrite exp_Ropp. unfold Rdiv. rewrite Rmult_1_l.
    apply Rinv_le_contravar; lra. }
  assert (Hbu : 3 / 4 <= 1 / (1 + exp (Ropp 2))).
  { unfold Rdiv at 2. rewrite Rmult_1_l.
    replace (3 / 4) with (/ (4 / 3)) by lra.
    apply Rinv_le_contravar; lra. }
  lra.
Qed.

(** X5 on an offer the customer of [main] accepts: budget 0, Premium and
    the preferred timeline. *)
Lemma customer_accepts_only_below_min_budget_witness :
  0 <= 10000 - 5000 / 3.
Proof.
  pose proof (customer_accepts_only_below_min_budget main_customer
                (mkOffer 0 Premium 6) eq_refl
                main_customer_accepts_free_offer) as [H _].
  simpl in H. exact H.
Defined.

Lemma planner_evaluate_offer_eq (a : NegotiationAgent) (o : Offer) :
  role a = wedding_planner ->
  0 < min_budget (preferences a) ->
  0 < max_timeline (preferences a) ->
  0 < budget o ->
  evaluate_offer a o =
    Ok (Rgeb (0.6 * ln (budget o / min_budget (preferences a))
              + 0.3 * calculate_services_utility a (services o)
              + 0.1 * (1 - timeline o / max_timeline (preferences a)))
             0.6).
Proof.
  intros Hr Hm Ht Hb.
  assert (Hne : max_timeline (preferences a) <> 0) by lra.
  rewrite (evaluate_offer_ok a o _
             (total_utility_ok a o _ _
                (planner_budget_utility_eq a (budget o) Hr Hm Hb)
                (planner_timeline_utility_eq a (timeline o) Hr Hne))).
  unfold threshold. rewrite Hr. reflexivity.
Qed.

(** X6.  A wedding planner with positive [min_budget] and [max_timeline]
    that accepts an offer of positive budget also accepts every offer that
    pays at least as much, for services ranked at least as high, within a
    timeline at most as long. *)
Theorem planner_acceptance_monotone :
  forall (a : NegotiationAgent) (o o' : Offer),
    role a = wedding_planner ->
    0 < min_budget (preferences a) ->
    0 < max_timeline (preferences a) ->
    0 < budget o <= budget o' ->
    (service_rank (services o) <= service_rank (services o'))%nat ->
    timeline o' <= timeline o ->
    evaluate_offer a o = Ok true ->
    evaluate_offer a o' = Ok true.
Proof.
  intros a o o' Hr Hm Ht [Hb Hbb] Hs Htt He.
  rewrite planner_evaluate_offer_eq in He by assumption.
  rewrite planner_evaluate_offer_eq by (assumption || lra).
  injection He as He. apply Rgeb_true in He. f_equal. apply Rgeb_true.
  set (m := min_budget (preferences a)) in *.
  set (M := max_timeline (preferences a)) in *.
  assert (Hln : ln (budget o / m) <= ln (budget o' / m)).
  { apply ln_le_compat.
    - apply Rdiv_lt_0_compat; assumption.
    - unfold Rdiv. apply Rmult_le_compat_r; [|assumption].
      left. apply Rinv_0_lt_compat. assumption. }
  pose proof (services_utility_le a _ _ Hs) as Hsu.
  assert (Htl : timeline o' / M <= timeline o / M).
  { unfold Rdiv. apply Rmult_le_compat_r; [|assumption].
    left. apply Rinv_0_lt_compat. assumption. }
  lra.
Qed.

(** X7.  A customer that accepts an offer also accepts every offer that
    costs at most as much, for services ranked at least as high, with a
    timeline at most as far from its preferred timeline. *)
Theorem customer_acceptance_monotone :
  forall (a : NegotiationAgent) (o o' : Offer),
    role a = customer ->
    budget o' <= budget o ->
    (service_rank (services o) <= service_rank (services o'))%nat ->
    Rabs (timeline o' - preferred_timeline (preferences a))
      <= Rabs (timeline o - preferred_timeline (preferences a)) ->
    evaluate_offer a o = Ok true ->
    evaluate_offer a o' = Ok true.
Proof.
  intros a o o' Hr Hb Hs Ht He.
  apply customer_evaluate_offer_eq in He as (Hm & Hfit & He); [|assumption].
  symmetry in He. apply Rgeb_true in He.
  assert (Hfit' : exp ((budget o' - min_budget (preferences a)) / 5000)
                  <= float_max).
  { apply Rle_trans
      with (exp ((budget o - min_budget (preferences a)) / 5000));
      [apply exp_le_compat; lra | exact Hfit]. }
  rewrite (evaluate_offer_ok a o' _
             (total_utility_ok a o' _ _
                (customer_budget_utility_fits a (budget o') Hr Hfit')
                (customer_timeline_utility_eq a (timeline o') Hr Hm))).
  f_equal. apply Rgeb_true. unfold threshold. rewrite Hr. simpl.
  set (m := min_budget (preferences a)) in *.
  set (M := max_timeline (preferences a)) in *.
  set (p := preferred_timeline (preferences a)) in *.
  assert (Hbu : 1 / (1 + exp ((budget o - m) / 5000))
                <= 1 / (1 + exp ((budget o' - m) / 5000))).
  { apply logistic_le. lra. }
  pose proof (services_utility_le a _ _ Hs) as Hsu.
  assert (Htu : Rabs ((timeline o' - p) / M) <= Rabs ((timeline o - p) / M)).
  { unfold Rdiv. rewrite !Rabs_mult. apply Rmult_le_compat_r.
    - apply Rabs_pos.
    - assumption. }
  lra.
Qed.

(** X6 and X7 on concrete offers.  The planner of [main] accepts budget
    30000 for Premium in 3 months, hence also 40000 for Premium in 3 months;
    the customer of [main] accepts budget 0, hence also budget -1000. *)
Lemma planner_acceptance_monotone_witness :
  evaluate_offer main_planner (mkOffer 40000 Premium 3) = Ok true.
Proof.
  assert (He : evaluate_offer main_planner (mkOffer 30000 Premium 3)
               = Ok true).
  { rewrite planner_evaluate_offer_eq by (reflexivity || simpl; lra).
    f_equal. apply Rgeb_true. unfold calculate_services_utility. simpl.
    replace (30000 / 10000) with 3 by lra.
    assert (Hln : 1 <= ln 3).
    { rewrite <- (ln_exp 1). apply ln_le_compat; [apply exp_pos|].
      apply exp_le_3. }
    lra. }
  apply (planner_acceptance_monotone main_planner (mkOffer 30000 Premium 3));
    simpl; try reflexivity; try lra; try lia; exact He.
Defined.

Lemma customer_acceptance_monotone_witness :
  evaluate_offer main_customer (mkOffer (-1000) Premium 6) = Ok true.
Proof.
  apply (customer_acceptance_monotone main_customer (mkOffer 0 Premium 6));
    simpl; try reflexivity; try lra; try lia.
  exact main_customer_accepts_free_offer.
Defined.

(** ** The offers of a run *)

Lemma iter_customer_timeline (c : NegotiationAgent) (n : nat) (o : Offer) :
  role c = customer ->
  timeline (Nat.iter n (fun x => generate_offer c (Some x)) o) = timeline o.
Proof.
  intros Hc. induction n as [|n IH]; [reflexivity|].
  rewrite !Nat.iter_succ. rewrite generate_offer_customer by assumption.
  exact IH.
Qed.

Lemma iter_planner_budget_services (p : NegotiationAgent) (n : nat)
    (o : Offer) :
  role p = wedding_planner ->
  budget (Nat.iter n (fun x => generate_offer p (Some x)) o) = budget o /\
  services (Nat.iter n (fun x => generate_offer p (Some x)) o) = services o.
Proof.
  intros Hp. induction n as [|n IH]; [split; reflexivity|].
  rewrite !Nat.iter_succ. rewrite generate_offer_planner by assumption.
  exact IH.
Qed.

Lemma iter_customer_congr (c : NegotiationAgent) (n : nat) (o1 o2 : Offer) :
  role c = customer ->
  budget o1 = budget o2 ->
  services o1 = services o2 ->
  budget (Nat.iter n (fun x => generate_offer c (Some x)) o1)
  = budget (Nat.iter n (fun x => generate_offer c (Some x)) o2) /\
  services (Nat.iter n (fun x => generate_offer c (Some x)) o1)
  = services (Nat.iter n (fun x => generate_offer c (Some x)) o2).
Proof.
  intros Hc Hb Hs. induction n as [|n [IHb IHs]]; [split; assumption|].
  rewrite !Nat.iter_succ. rewrite !generate_offer_customer by assumption.
  cbn [budget services]. rewrite IHb, IHs. split; reflexivity.
Qed.

Lemma iter_planner_congr (p : NegotiationAgent) (n : nat) (o1 o2 : Offer) :
  role p = wedding_planner ->
  timeline o1 = timeline o2 ->
  timeline (Nat.iter n (fun x => generate_offer p (Some x)) o1)
  = timeline (Nat.iter n (fun x => generate_offer p (Some x)) o2).
Proof.
  intros Hp Ht. induction n as [|n IH]; [assumption|].
  rewrite !Nat.iter_succ. rewrite !generate_offer_planner by assumption.
  cbn [timeline]. rewrite IH. reflexivity.
Qed.

Lemma iter_customer_services (c : NegotiationAgent) (n : nat) (o : Offer) :
  role c = customer ->
  services (Nat.iter (S n) (fun x => generate_offer c (Some x)) o)
  = upgraded (services o).
Proof.
  intros Hc. induction n as [|n IH].
  - rewrite !Nat.iter_succ. rewrite generate_offer_customer by assumption.
    cbn [services Nat.iter nat_rect]. destruct (services o); reflexivity.
  - change (Nat.iter (S (S n)) (fun x => generate_offer c (Some x)) o)
      with (generate_offer c
              (Some (Nat.iter (S n) (fun x => generate_offer c (Some x)) o))).
    rewrite generate_offer_customer by assumption. cbn [services].
    rewrite IH. destruct (services o); reflexivity.
Qed.

(** After an even number of rejections the budget and the services are
    those of the customer's concessions alone, the timeline that of the
    planner's alone. *)
Lemma offer_after_even (c p : NegotiationAgent) (j : nat) (o : Offer) :
  role c = customer ->
  role p = wedding_planner ->
  budget (offer_after p c o (2 * j))
  = budget (Nat.iter j (fun x => generate_offer c (Some x)) o) /\
  services (offer_after p c o (2 * j))
  = services (Nat.iter j (fun x => generate_offer c (Some x)) o) /\
  timeline (offer_after p c o (2 * j))
  = timeline (Nat.iter j (fun x => generate_offer p (Some x)) o).
Proof.
  intros Hc Hp. revert o. induction j as [|j IH]; intros o.
  - repeat split.
  - replace (2 * S j)%nat with (S (S (2 * j))) by lia.
    change (offer_after p c o (S (S (2 * j))))
      with (offer_after p c
              (generate_offer c (Some (generate_offer p (Some o))))
              (2 * j)).
    destruct (IH (generate_offer c (Some (generate_offer p (Some o)))))
      as (Hb & Hs & Ht).
    rewrite Hb, Hs, Ht. rewrite !Nat.iter_succ_r.
    destruct (iter_customer_congr c j
                (generate_offer c (Some (generate_offer p (Some o))))
                (generate_offer c (Some o)) Hc) as [Eb Es].
    + rewrite (generate_offer_customer c (generate_offer p (Some o))),
        (generate_offer_customer c o) by assumption.
      rewrite generate_offer_planner by assumption. reflexivity.
    + rewrite (generate_offer_customer c (generate_offer p (Some o))),
        (generate_offer_customer c o) by assumption.
      rewrite generate_offer_planner by assumption. reflexivity.
    + rewrite Eb, Es. repeat split.
      apply iter_planner_congr; [assumption|].
      rewrite generate_offer_customer by assumption. reflexivity.
Qed.

(** X8.  The two agents' concessions do not interfere.  In a run between a
    customer and a wedding planner, the offer evaluated in round [k + 1] has
    the budget of the customer's opening offer after [k / 2] concessions of
    the customer alone, the timeline of that offer after [(k + 1) / 2]
    concessions of the planner alone, and the opening services, with Basic
    turned into Standard from round 3 on. *)
Theorem negotiation_offers_by_agent :
  forall c p : NegotiationAgent,
    role c = customer ->
    role p = wedding_planner ->
    forall (k : nat) (r : RoundInfo),
      nth_error (negotiation_history
                   (state_of (run_negotiation (init_simulation c p)))) k
        = Some r ->
      budget (offer r)
      = budget (Nat.iter (Nat.div2 k)
                  (fun o => generate_offer c (Some o))
                  (generate_offer c None)) /\
      timeline (offer r)
      = timeline (Nat.iter (Nat.div2 (S k))
                    (fun o => generate_offer p (Some o))
                    (generate_offer c None)) /\
      services (offer r)
      = (if (k <? 2)%nat
         then optimal_services (preferences c)
         else upgraded (optimal_services (preferences c))).
Proof.
  intros c p Hc Hp k r Hk.
  rewrite (round_chain_offer _ _ _ _ _ (run_negotiation_chain c p) k r Hk).
  set (o := generate_offer c None).
  assert (Hserv : forall j,
             services (Nat.iter j (fun x => generate_offer c (Some x)) o)
             = (if (2 * j <? 2)%nat
                then optimal_services (preferences c)
                else upgraded (optimal_services (preferences c)))).
  { intros [|j]; [reflexivity|].
    rewrite iter_customer_services by assumption.
    replace (2 * S j <? 2)%nat with false
      by (symmetry; apply Nat.ltb_ge; lia).
    reflexivity. }
  destruct (Nat.Even_or_Odd k) as [[j ->] | [j ->]].
  - destruct (offer_after_even c p j o Hc Hp) as (Hb & Hs & Ht).
    rewrite Hb, Hs, Ht, Hserv.
    rewrite Nat.div2_double, Nat.div2_succ_double. repeat split.
  - replace (2 * j + 1)%nat with (S (2 * j)) by lia.
    rewrite offer_after_succ.
    replace (evaluator c p (S (2 * j))) with p
      by (unfold evaluator;
          rewrite Nat.even_succ, Nat.odd_mul; reflexivity).
    destruct (offer_after_even c p j o Hc Hp) as (Hb & Hs & Ht).
    rewrite generate_offer_planner by assumption.
    cbn [budget services timeline]. rewrite Hb, Hs, Hserv.
    rewrite Nat.div2_succ_double.
    replace (S (S (2 * j))) with (2 * S j)%nat by lia.
    rewrite Nat.div2_double.
    replace (S (2 * j) <? 2)%nat with (2 * j <? 2)%nat
      by (destruct j as [|j']; [reflexivity|];
          rewrite !(proj2 (Nat.ltb_ge _ _)) by lia; reflexivity).
    repeat split.
    change (Nat.iter (S j) (fun x => generate_offer p (Some x)) o)
      with (generate_offer p
              (Some (Nat.iter j (fun x => generate_offer p (Some x)) o))).
    rewrite generate_offer_planner by assumption. cbn [timeline].
    rewrite Ht. reflexivity.
Qed.

Lemma exhausted_history_length (c p : NegotiationAgent) :
  outcome_of (run_negotiation (init_simulation c p)) = Returned None ->
  length (negotiation_history
            (state_of (run_negotiation (init_simulation c p)))) = 10%nat.
Proof.
  intros Hex.
  destruct (run_negotiation_exhausted_state c p Hex) as (_ & _ & Hcur).
  revert Hex Hcur. unfold run_negotiation. cbv zeta.
  change (sim_customer (init_simulation c p)) with c.
  change (sim_wedding_planner (init_simulation c p)) with p.
  set (s0 := init_simulation c p).
  set (out0 := [PrintInitialOffers (generate_offer c None)
                                   (generate_offer p None)]).
  set (o0 := generate_offer c None).
  intros Hex Hcur.
  destruct (negotiation_loop_counts s0 o0 p c out0) as (_ & _ & _ & _ & Hlen).
  destruct (negotiation_loop_frame s0 o0 p c out0) as (_ & _ & Hm).
  rewrite Hex in Hlen. rewrite Hm in Hcur.
  change (max_rounds s0) with 10%nat in *.
  change (current_round s0) with 0%nat in *.
  change (negotiation_history s0) with (@nil RoundInfo) in *.
  simpl length in Hlen. lia.
Qed.

Lemma firm_history_third :
  exists r,
    nth_error (negotiation_history
                 (state_of (run_negotiation
                              (init_simulation firm_customer firm_planner))))
              2 = Some r.
Proof.
  pose proof (exhausted_history_length _ _ firm_agents_exhaust) as Hlen.
  destruct (nth_error _ 2) as [r|] eqn:E.
  - exists r. reflexivity.
  - apply nth_error_None in E. lia.
Qed.

(** X8 on the two agents at a standstill: the offer of round 3. *)
Lemma negotiation_offers_by_agent_witness :
  exists r,
    nth_error (negotiation_history
                 (state_of (run_negotiation
                              (init_simulation firm_customer firm_planner))))
              2 = Some r /\
    services (offer r) = Premium.
Proof.
  destruct firm_history_third as [r Hr]. exists r. split; [exact Hr|].
  exact (proj2 (proj2 (negotiation_offers_by_agent firm_customer firm_planner
                         eq_refl eq_refl 2%nat r Hr))).
Defined.

(** ** A customer that keeps to its preferences never agrees *)

Lemma customer_rejects_from_min_budget (c : NegotiationAgent) (o : Offer)
    (verdict : bool) :
  role c = customer ->
  min_budget (preferences c) <= budget o ->
  evaluate_offer c o = Ok verdict ->
  verdict = false.
Proof.
  intros Hr Hb He. destruct verdict; [|reflexivity].
  pose proof (customer_acceptance_budget_bound c o Hr He) as H. lra.
Qed.

(** The budget never falls below a bound that the customer's [max_budget]
    respects, whichever agent concedes first. *)
Lemma offer_after_budget_floor (c p : NegotiationAgent) (L : R) :
  role c = customer ->
  role p = wedding_planner ->
  0 <= L <= max_budget (preferences c) ->
  forall (n : nat) (o : Offer),
    L <= budget o ->
    L <= budget (offer_after p c o n) /\ L <= budget (offer_after c p o n).
Proof.
  intros Hc Hp [H0 HL]. induction n as [|n IH]; intros o Ho.
  - simpl. split; assumption.
  - cbn [offer_after]. split.
    + apply IH. rewrite generate_offer_planner by assumption. exact Ho.
    + apply IH. rewrite customer_offer_budget by assumption.
      apply Rmin_glb; lra.
Qed.

(** X9.  A customer that keeps to its own preferences, with
    [0 <= min_budget <= optimal_budget] and [min_budget <= max_budget], never
    accepts anything in a negotiation with a wedding planner: every record of
    an odd round is a rejection.  An agreement can only be the planner's, in
    an even round, and the offer agreed on is one the customer itself does
    not accept. *)
Theorem customer_never_agrees :
  forall c p : NegotiationAgent,
    role c = customer ->
    role p = wedding_planner ->
    0 <= min_budget (preferences c) ->
    min_budget (preferences c) <= optimal_budget (preferences c) ->
    min_budget (preferences c) <= max_budget (preferences c) ->
    let res := run_negotiation (init_simulation c p) in
    (forall (k : nat) (r : RoundInfo),
        nth_error (negotiation_history (state_of res)) k = Some r ->
        min_budget (preferences c) <= budget (offer r) /\
        (Nat.even k = true -> accepted r = false)) /\
    (forall agreed : Offer,
        outcome_of res = Returned (Some agreed) ->
        Nat.even (current_round (state_of res)) = true /\
        evaluate_offer p agreed = Ok true /\
        evaluate_offer c agreed <> Ok true).
Proof.
  intros c p Hc Hp H0 Hopt Hmax res.
  pose proof (run_negotiation_chain c p) as Hchain. fold res in Hchain.
  assert (Hrec : forall k r,
             nth_error (negotiation_history (state_of res)) k = Some r ->
             min_budget (preferences c) <= budget (offer r) /\
             (Nat.even k = true -> accepted r = false)).
  { intros k r Hk.
    assert (Hb : min_budget (preferences c) <= budget (offer r)).
    { rewrite (round_chain_offer _ _ _ _ _ Hchain k r Hk).
      exact (proj1 (offer_after_budget_floor c p _ Hc Hp (conj H0 Hmax) k
                      (generate_offer c None) Hopt)). }
    split; [exact Hb|]. intros Heven.
    destruct (round_chain_nth _ _ _ _ _ Hchain k r Hk) as (_ & _ & He & _).
    unfold evaluator in He. rewrite Heven in He.
    exact (customer_rejects_from_min_budget c _ _ Hc Hb He). }
  split; [exact Hrec|].
  intros agreed Hag.
  assert (Hlast : exists earlier r0,
             negotiation_history (state_of res)
             = earlier ++ [mkRoundInfo (current_round (state_of res)) r0
                                       agreed true]).
  { subst res. revert Hag. unfold run_negotiation. cbv zeta.
    change (sim_customer (init_simulation c p)) with c.
    change (sim_wedding_planner (init_simulation c p)) with p.
    intros Hag.
    match goal with
    | |- context [negotiation_loop ?s ?o ?cur ?resp ?out] =>
        destruct (negotiation_loop_verdicts s o cur resp out)
          as (rest & Hh & Hv)
    end.
    rewrite Hag in Hv. destruct Hv as (earlier & r0 & -> & _).
    exists earlier, r0. exact Hh. }
  destruct Hlast as (earlier & r0 & Hh).
  set (last := mkRoundInfo (current_round (state_of res)) r0 agreed true)
    in *.
  assert (Hk : nth_error (negotiation_history (state_of res))
                         (length earlier) = Some last).
  { rewrite Hh, nth_error_app2, Nat.sub_diag by lia. reflexivity. }
  destruct (Hrec _ _ Hk) as [Hb Hrej].
  destruct (round_chain_nth _ _ _ _ _ Hchain _ _ Hk)
    as (Hround & _ & He & _).
  simpl in Hround, He, Hb.
  destruct (Nat.even (length earlier)) eqn:Heven.
  - specialize (Hrej eq_refl). discriminate.
  - split; [|split].
    + rewrite Hround, Nat.even_succ, <- Nat.negb_even, Heven. reflexivity.
    + unfold evaluator in He. rewrite Heven in He. exact He.
    + intros Hacc.
      pose proof (customer_rejects_from_min_budget c _ _ Hc Hb Hacc).
      discriminate.
Qed.

(** ** Concessions along a run *)

Lemma offer_after_in_range (c p : NegotiationAgent) :
  role c = customer ->
  role p = wedding_planner ->
  0 <= min_timeline (preferences p) ->
  forall (n : nat) (o : Offer),
    0 <= budget o <= max_budget (preferences c) ->
    min_timeline (preferences p) <= timeline o ->
    (0 <= budget (offer_after p c o n) <= max_budget (preferences c) /\
     min_timeline (preferences p) <= timeline (offer_after p c o n)) /\
    (0 <= budget (offer_after c p o n) <= max_budget (preferences c) /\
     min_timeline (preferences p) <= timeline (offer_after c p o n)).
Proof.
  intros Hc Hp Hm. induction n as [|n IH]; intros o Hb Ht.
  - simpl. repeat split; lra.
  - cbn [offer_after]. split.
    + apply IH; rewrite generate_offer_planner by assumption;
        cbn [budget timeline]; [exact Hb | apply Rmax_r].
    + apply IH; rewrite generate_offer_customer by assumption;
        cbn [budget timeline]; [|exact Ht].
      split; [apply Rmin_glb; lra | apply Rmin_r].
Qed.

(** X10.  Within a run the concessions are monotone.  With a customer
    whose opening budget lies between 0 and its [max_budget], and a wedding
    planner whose [min_timeline] lies between 0 and the customer's opening
    timeline, each record's offer compared with the one before has a budget
    at least as high and at most [max_budget], a timeline at most as long
    and at least [min_timeline], and services ranked at least as high. *)
Theorem negotiation_concessions_monotone :
  forall c p : NegotiationAgent,
    role c = customer ->
    role p = wedding_planner ->
    0 <= optimal_budget (preferences c) <= max_budget (preferences c) ->
    0 <= min_timeline (preferences p) <= optimal_timeline (preferences c) ->
    forall (k : nat) (r r' : RoundInfo),
      let h := negotiation_history
                 (state_of (run_negotiation (init_simulation c p))) in
      nth_error h k = Some r ->
      nth_error h (S k) = Some r' ->
      budget (offer r) <= budget (offer r') <= max_budget (preferences c) /\
      min_timeline (preferences p) <= timeline (offer r')
        <= timeline (offer r) /\
      (service_rank (services (offer r))
       <= service_rank (services (offer r')))%nat.
Proof.
  intros c p Hc Hp Hb [Hm Ht] k r r' h Hk Hk'. subst h.
  pose proof (run_negotiation_chain c p) as Hchain.
  destruct (round_chain_nth _ _ _ _ _ Hchain _ _ Hk')
    as (_ & _ & _ & r0 & Hr0 & Hoffer).
  rewrite Hk in Hr0. injection Hr0 as <-.
  assert (Hin : 0 <= budget (offer r) <= max_budget (preferences c) /\
                min_timeline (preferences p) <= timeline (offer r)).
  { rewrite (round_chain_offer _ _ _ _ _ Hchain k r Hk).
    exact (proj1 (offer_after_in_range c p Hc Hp Hm k
                    (generate_offer c None) Hb Ht)). }
  destruct Hin as [Hbr Htr]. rewrite Hoffer.
  unfold evaluator. destruct (Nat.even (S k)).
  - rewrite generate_offer_customer by assumption.
    cbn [budget services timeline]. repeat split.
    + apply Rmin_glb; lra.
    + apply Rmin_r.
    + exact Htr.
    + lra.
    + destruct (services (offer r)); simpl; lia.
  - rewrite generate_offer_planner by assumption.
    cbn [budget services timeline]. repeat split.
    + lra.
    + lra.
    + apply Rmax_r.
    + apply Rmax_lub; lra.
    + lia.
Qed.

(** ** A call on any simulation *)

(** X11.  A call of [run_negotiation], on a fresh simulation or on one
    that has run before, keeps the two agents and [max_rounds], never lowers
    the round counter and leaves the records already in the history in
    place.  It appends at most one record for each round that was left, and
    the first record it appends carries the customer's opening offer again,
    under the next round number: an earlier bargaining is not resumed. *)
Theorem run_negotiation_appends :
  forall s : NegotiationSimulation,
    let s' := state_of (run_negotiation s) in
    sim_customer s' = sim_customer s /\
    sim_wedding_planner s' = sim_wedding_planner s /\
    max_rounds s' = max_rounds s /\
    (current_round s <= current_round s')%nat /\
    exists rest,
      negotiation_history s' = negotiation_history s ++ rest /\
      (length rest <= max_rounds s - current_round s)%nat /\
      map round rest = seq (S (current_round s)) (length rest) /\
      (forall r, nth_error rest 0 = Some r ->
                 offer r = generate_offer (sim_customer s) None /\
                 offering_agent r = role (sim_wedding_planner s)).
Proof.
  intros s. cbv zeta. unfold run_negotiation. cbv zeta.
  set (o0 := generate_offer (sim_customer s) None).
  set (out0 := [PrintInitialOffers o0
                  (generate_offer (sim_wedding_planner s) None)]).
  destruct (negotiation_loop_frame s o0 (sim_wedding_planner s)
              (sim_customer s) out0) as (Hc & Hp & Hm).
  destruct (negotiation_loop_counts s o0 (sim_wedding_planner s)
              (sim_customer s) out0) as (Hle & Hmax & _ & _ & Hlen).
  destruct (negotiation_loop_history s o0 (sim_wedding_planner s)
              (sim_customer s) out0) as (rest & Hh & Hchain).
  repeat split; try assumption.
  exists rest. split; [exact Hh|]. split; [|split].
  - rewrite Hh, length_app in Hlen.
    destruct (le_lt_dec (current_round s) (max_rounds s)) as [Hin | Hout].
    + specialize (Hmax Hin).
      destruct (outcome_of _) in Hlen; lia.
    + rewrite negotiation_loop_done in Hlen by lia.
      unfold outcome_of, state_of in Hlen. simpl in Hlen. lia.
  - apply (round_chain_rounds _ _ _ _ _ Hchain).
  - intros r Hr.
    destruct (round_chain_nth _ _ _ _ _ Hchain 0%nat r Hr)
      as (_ & Hrole & _ & Hoffer).
    split; [exact Hoffer | exact Hrole].
Qed.

(** ** A run that raises *)

Lemma negotiation_loop_raised s o cur resp out e :
  outcome_of (negotiation_loop s o cur resp out) = Raised e ->
  exists rest,
    negotiation_history (state_of (negotiation_loop s o cur resp out))
      = negotiation_history s ++ rest /\
    evaluate_offer (evaluator resp cur (length rest))
                   (offer_after cur resp o (length rest)) = Raise e.
Proof.
  apply (negotiation_loop_ind
    (fun s o cur resp out res =>
       outcome_of res = Raised e ->
       exists rest,
         negotiation_history (state_of res) = negotiation_history s ++ rest /\
         evaluate_offer (evaluator resp cur (length rest))
                        (offer_after cur resp o (length rest)) = Raise e));
    clear.
  - intros s o cur resp out _ H. discriminate.
  - intros s o cur resp out e' _ He H. injection H as ->.
    exists []. split.
    + simpl. rewrite app_nil_r. reflexivity.
    + exact He.
  - intros s o cur resp out _ _ H. discriminate.
  - intros s o cur resp out res _ _ IH H.
    destruct (IH H) as (rest & Hh & He).
    exists (mkRoundInfo (current_round s + 1) (role cur) o false :: rest).
    split.
    + rewrite Hh. simpl. rewrite <- app_assoc. reflexivity.
    + simpl length. rewrite evaluator_succ. exact He.
Qed.

(** X12.  When an evaluation raises, the exception leaves
    [run_negotiation] with the round already counted and announced but not
    recorded: the counter is one ahead of the history, every recorded verdict
    is a rejection, and the exception is the one [evaluate_offer] raises for
    the round's evaluator on the offer then on the table. *)
Theorem run_negotiation_raised :
  forall (c p : NegotiationAgent) (e : PyError),
    let res := run_negotiation (init_simulation c p) in
    outcome_of res = Raised e ->
    let n := length (negotiation_history (state_of res)) in
    current_round (state_of res) = S n /\
    (n < 10)%nat /\
    count_rounds (output_of res) = S n /\
    count_evaluations (output_of res) = n /\
    Forall (fun r => accepted r = false)
           (negotiation_history (state_of res)) /\
    evaluate_offer (evaluator c p n)
                   (offer_after p c (generate_offer c None) n) = Raise e.
Proof.
  intros c p e res Hraised n. subst n res. revert Hraised.
  unfold run_negotiation. cbv zeta.
  change (sim_customer (init_simulation c p)) with c.
  change (sim_wedding_planner (init_simulation c p)) with p.
  set (s0 := init_simulation c p).
  set (out0 := [PrintInitialOffers (generate_offer c None)
                                   (generate_offer p None)]).
  set (o0 := generate_offer c None).
  intros Hraised.
  destruct (negotiation_loop_counts s0 o0 p c out0)
    as (_ & Hmax & Hrounds & Hevals & Hlen).
  destruct (negotiation_loop_verdicts s0 o0 p c out0) as (rest & Hh & Hv).
  destruct (negotiation_loop_raised s0 o0 p c out0 e Hraised)
    as (rest' & Hh' & He).
  rewrite Hh in Hh'. apply app_inv_head in Hh'. subst rest'.
  rewrite Hraised in Hv, Hlen.
  change (negotiation_history s0 ++ rest) with rest in Hh.
  change (current_round s0) with 0%nat in *.
  change (max_rounds s0) with 10%nat in *.
  change (negotiation_history s0) with (@nil RoundInfo) in *.
  change (count_rounds out0) with 0%nat in *.
  change (count_evaluations out0) with 0%nat in *.
  simpl length in *. rewrite Hh in *.
  repeat split; try lia; assumption.
Qed.

(** X12 on a customer whose [max_timeline] is 0: the run raises
    [ZeroDivisionError] in round 1, with an empty history. *)
Lemma run_negotiation_raised_witness :
  let res := run_negotiation
               (init_simulation zero_max_customer main_planner) in
  current_round (state_of res)
  = S (length (negotiation_history (state_of res))).
Proof.
  exact (proj1 (run_negotiation_raised zero_max_customer main_planner
                  ZeroDivisionError zero_max_customer_raises)).
Defined.

(** ** The negotiation of [main] *)

Lemma ln_le_minus_1 (x : R) : 0 < x -> ln x <= x - 1.
Proof.
  intros Hx. pose proof (exp_ineq1_le (ln x)) as H.
  rewrite exp_ln in H by assumption. lra.
Qed.

Lemma ln_ge_1_minus_inv (x : R) : 0 < x -> 1 - / x <= ln x.
Proof.
  intros Hx. pose proof (Rinv_0_lt_compat x Hx) as Hi.
  pose proof (ln_le_minus_1 (/ x) Hi) as H.
  rewrite ln_Rinv in H by assumption. lra.
Qed.

Lemma ln_upper_by_power (n : nat) (a x : R) :
  0 < a -> 0 < x -> x <= a ^ n -> ln x <= INR n * (a - 1).
Proof.
  intros Ha Hx Hle.
  apply Rle_trans with (ln (a ^ n)).
  - apply ln_le_compat; assumption.
  - rewrite ln_pow by assumption.
    apply Rmult_le_compat_l; [apply pos_INR | apply ln_le_minus_1; assumption].
Qed.

Lemma ln_lower_by_power (n : nat) (a x : R) :
  0 < a -> a ^ n <= x -> INR n * (1 - / a) <= ln x.
Proof.
  intros Ha Hle.
  apply Rle_trans with (ln (a ^ n)).
  - rewrite ln_pow by assumption.
    apply Rmult_le_compat_l;
      [apply pos_INR | apply ln_ge_1_minus_inv; assumption].
  - apply ln_le_compat; [apply pow_lt; assumption | assumption].
Qed.

Lemma customer_rejects_when_not_below_min_budget (c : NegotiationAgent)
    (o : Offer) :
  role c = customer ->
  max_timeline (preferences c) <> 0 ->
  min_budget (preferences c) <= budget o ->
  (budget o - min_budget (preferences c)) / 5000 <= 700 ->
  evaluate_offer c o = Ok false.
Proof.
  intros Hr Hm Hb Hq.
  pose proof (evaluate_offer_ok c o _
                (total_utility_ok c o _ _
                   (customer_budget_utility_eq c (budget o) Hr Hq)
                   (customer_timeline_utility_eq c (timeline o) Hr Hm)))
    as He.
  rewrite He. f_equal.
  exact (customer_rejects_from_min_budget c o _ Hr Hb He).
Qed.

Lemma main_customer_rejects (o : Offer) :
  10000 <= budget o <= 50000 -> evaluate_offer main_customer o = Ok false.
Proof.
  intros [Hb Hc]. apply customer_rejects_when_not_below_min_budget.
  - reflexivity.
  - simpl. lra.
  - exact Hb.
  - simpl. lra.
Qed.

Lemma main_planner_evaluates (o : Offer) :
  0 < budget o ->
  evaluate_offer main_planner o =
    Ok (Rgeb (0.6 * ln (budget o / 10000)
              + 0.3 * calculate_services_utility main_planner (services o)
              + 0.1 * (1 - timeline o / 12))
             0.6).
Proof.
  intros Hb. apply planner_evaluate_offer_eq; try reflexivity; simpl; lra.
Qed.

Lemma main_round_2 :
  evaluate_offer main_planner (mkOffer 15000 Standard (6 * 0.9)) = Ok false.
Proof.
  rewrite main_planner_evaluates by (simpl; lra). f_equal.
  apply Rgeb_false. unfold calculate_services_utility. simpl.
  replace (15000 / 10000) with 1.5 by lra.
  assert (H : ln 1.5 <= 1.5 - 1) by (apply ln_le_minus_1; lra).
  lra.
Qed.

Lemma main_round_4 :
  evaluate_offer main_planner
    (mkOffer (15000 * 1.05) Standard (6 * 0.9 * 0.9)) = Ok false.
Proof.
  rewrite main_planner_evaluates by (simpl; lra). f_equal.
  apply Rgeb_false. unfold calculate_services_utility. simpl.
  replace (15000 * 1.05 / 10000) with 1.575 by lra.
  assert (H : ln 1.575 <= INR 4 * (1.123 - 1)).
  { apply ln_upper_by_power; [lra | lra | simpl; lra]. }
  simpl INR in H. lra.
Qed.

Lemma main_round_6 :
  evaluate_offer main_planner
    (mkOffer (15000 * 1.05 * 1.05) Standard (6 * 0.9 * 0.9 * 0.9)) = Ok true.
Proof.
  rewrite main_planner_evaluates by (simpl; lra). f_equal.
  apply Rgeb_true. unfold calculate_services_utility. simpl.
  replace (15000 * 1.05 * 1.05 / 10000) with 1.65375 by lra.
  assert (H : INR 32 * (1 - / 1.0158) <= ln 1.65375).
  { apply ln_lower_by_power; [lra | simpl; lra]. }
  replace (INR 32) with 32 in H by (simpl; lra).
  assert (Hinv : / 1.0158 <= 0.9845).
  { apply (Rmult_le_reg_l 1.0158); [lra|]. rewrite Rinv_r by lra. lra. }
  lra.
Qed.

Lemma main_planner_concedes (b t : R) :
  3 <= t * 0.9 ->
  generate_offer main_planner (Some (mkOffer b Standard t))
  = mkOffer b Standard (t * 0.9).
Proof.
  intros Ht. rewrite generate_offer_planner by reflexivity. simpl.
  f_equal. apply Rmax_left. exact Ht.
Qed.

Lemma main_customer_concedes (b t : R) :
  b * 1.05 <= 50000 ->
  generate_offer main_customer (Some (mkOffer b Standard t))
  = mkOffer (b * 1.05) Standard t.
Proof.
  intros Hb. rewrite generate_offer_customer by reflexivity. simpl.
  f_equal. apply Rmin_left. exact Hb.
Qed.

Lemma main_run :
  run_negotiation (init_simulation main_customer main_planner) =
    (Returned (Some (mkOffer (15000 * 1.05 * 1.05) Standard
                             (6 * 0.9 * 0.9 * 0.9))),
     mkSimulation main_customer main_planner 10 6
       [mkRoundInfo 1 wedding_planner (mkOffer 15000 Standard 6) false;
        mkRoundInfo 2 customer (mkOffer 15000 Standard (6 * 0.9)) false;
        mkRoundInfo 3 wedding_planner
          (mkOffer (15000 * 1.05) Standard (6 * 0.9)) false;
        mkRoundInfo 4 customer
          (mkOffer (15000 * 1.05) Standard (6 * 0.9 * 0.9)) false;
        mkRoundInfo 5 wedding_planner
          (mkOffer (15000 * 1.05 * 1.05) Standard (6 * 0.9 * 0.9)) false;
        mkRoundInfo 6 customer
          (mkOffer (15000 * 1.05 * 1.05) Standard (6 * 0.9 * 0.9 * 0.9))
          true],
     [PrintInitialOffers (mkOffer 15000 Standard 6) (mkOffer 40000 Premium 4);
      PrintRound 1;
      PrintEvaluation wedding_planner (mkOffer 15000 Standard 6) false;
      PrintRound 2;
      PrintEvaluation customer (mkOffer 15000 Standard (6 * 0.9)) false;
      PrintRound 3;
      PrintEvaluation wedding_planner
        (mkOffer (15000 * 1.05) Standard (6 * 0.9)) false;
      PrintRound 4;
      PrintEvaluation customer
        (mkOffer (15000 * 1.05) Standard (6 * 0.9 * 0.9)) false;
      PrintRound 5;
      PrintEvaluation wedding_planner
        (mkOffer (15000 * 1.05 * 1.05) Standard (6 * 0.9 * 0.9)) false;
      PrintRound 6;
      PrintEvaluation customer
        (mkOffer (15000 * 1.05 * 1.05) Standard (6 * 0.9 * 0.9 * 0.9)) true;
      PrintAgreement
        (mkOffer (15000 * 1.05 * 1.05) Standard (6 * 0.9 * 0.9 * 0.9)) 6]).
Proof.
  unfold run_negotiation. cbv zeta.
  change (sim_customer (init_simulation main_customer main_planner))
    with main_customer.
  change (sim_wedding_planner (init_simulation main_customer main_planner))
    with main_planner.
  change (generate_offer main_customer None) with (mkOffer 15000 Standard 6).
  change (generate_offer main_planner None) with (mkOffer 40000 Premium 4).
  rewrite negotiation_loop_step by (simpl; lia).
  rewrite main_customer_rejects by (simpl; lra).
  rewrite main_planner_concedes by lra.
  rewrite negotiation_loop_step by (simpl; lia).
  rewrite main_round_2.
  rewrite main_customer_concedes by lra.
  rewrite negotiation_loop_step by (simpl; lia).
  rewrite main_customer_rejects by (simpl; lra).
  rewrite main_planner_concedes by lra.
  rewrite negotiation_loop_step by (simpl; lia).
  rewrite main_round_4.
  rewrite main_customer_concedes by lra.
  rewrite negotiation_loop_step by (simpl; lia).
  rewrite main_customer_rejects by (simpl; lra).
  rewrite main_planner_concedes by lra.
  rewrite negotiation_loop_step by (simpl; lia).
  rewrite main_round_6.
  reflexivity.
Qed.


(** X9 on [main]: the offer agreed on in round 6 is accepted by the planner
    and not by the customer. *)
Lemma customer_never_agrees_witness :
  Nat.even 6 = true /\
  evaluate_offer main_planner
    (mkOffer (15000 * 1.05 * 1.05) Standard (6 * 0.9 * 0.9 * 0.9))
  = Ok true /\
  evaluate_offer main_customer
    (mkOffer (15000 * 1.05 * 1.05) Standard (6 * 0.9 * 0.9 * 0.9))
  <> Ok true.
Proof.
  assert (H0 : 0 <= min_budget (preferences main_customer)) by (simpl; lra).
  assert (Hopt : min_budget (preferences main_customer)
                 <= optimal_budget (preferences main_customer))
    by (simpl; lra).
  assert (Hmax : min_budget (preferences main_customer)
                 <= max_budget (preferences main_customer)) by (simpl; lra).
  destruct (customer_never_agrees main_customer main_planner
              eq_refl eq_refl H0 Hopt Hmax) as [_ H].
  rewrite main_run in H.
  exact (H (mkOffer (15000 * 1.05 * 1.05) Standard (6 * 0.9 * 0.9 * 0.9))
           eq_refl).
Defined.

(** X10 on [main]: from round 1 to round 2 the budget stays at 15000 and
    the timeline goes from 6 down to 6 * 0.9. *)
Lemma negotiation_concessions_monotone_witness :
  15000 <= 15000 <= 50000 /\ 3 <= 6 * 0.9 <= 6 /\ (1 <= 1)%nat.
Proof.
  assert (Hb : 0 <= optimal_budget (preferences main_customer)
               <= max_budget (preferences main_customer)) by (simpl; lra).
  assert (Ht : 0 <= min_timeline (preferences main_planner)
               <= optimal_timeline (preferences main_customer))
    by (simpl; lra).
  pose proof (negotiation_concessions_monotone main_customer main_planner
                eq_refl eq_refl Hb Ht 0%nat
                (mkRoundInfo 1 wedding_planner (mkOffer 15000 Standard 6)
                             false)
                (mkRoundInfo 2 customer (mkOffer 15000 Standard (6 * 0.9))
                             false))
    as H.
  cbv zeta in H. rewrite main_run in H.
  exact (H eq_refl eq_refl).
Defined.

(** ** The run as a search along the offers *)

(** X14.  What [run_negotiation] returns on a fresh simulation.  Let the
    offers be the customer's opening offer followed by the concessions, the
    wedding planner conceding first, and let them be evaluated in turn by
    the customer and by the wedding planner.  The run returns an offer
    exactly when it is the first of the first ten offers whose evaluator
    accepts it, every earlier one being rejected without an exception; it
    returns [None] exactly when all ten are rejected. *)
Theorem run_negotiation_first_acceptance :
  forall c p : NegotiationAgent,
    let res := run_negotiation (init_simulation c p) in
    let offer_of := offer_after p c (generate_offer c None) in
    (forall agreed : Offer,
        outcome_of res = Returned (Some agreed) <->
        exists k,
          (k < 10)%nat /\
          agreed = offer_of k /\
          evaluate_offer (evaluator c p k) (offer_of k) = Ok true /\
          forall j, (j < k)%nat ->
            evaluate_offer (evaluator c p j) (offer_of j) = Ok false) /\
    (outcome_of res = Returned None <->
     forall j, (j < 10)%nat ->
       evaluate_offer (evaluator c p j) (offer_of j) = Ok false).
Proof.
  intros c p. cbv zeta. unfold run_negotiation. cbv zeta.
  change (sim_customer (init_simulation c p)) with c.
  change (sim_wedding_planner (init_simulation c p)) with p.
  split.
  - intros agreed. apply negotiation_loop_agreement.
  - apply negotiation_loop_no_agreement.
Qed.

(** ** Where the concessions stop *)

(** X15.  Offers a concession leaves as they are.  A customer returns the
    previous offer unchanged when its services are not Basic and its budget
    is either 0, with a [max_budget] that is not negative, or the
    [max_budget] itself, when that is positive; it always changes an offer
    for Basic services.  A wedding planner returns the previous offer
    unchanged when its timeline is either 0, with a [min_timeline] that is
    not positive, or the [min_timeline] itself, when that is positive. *)
Theorem generate_offer_fixed_points :
  forall (a : NegotiationAgent) (prev : Offer),
    match role a with
    | customer =>
        (services prev <> Basic ->
         (budget prev = 0 /\ 0 <= max_budget (preferences a)) \/
         (budget prev = max_budget (preferences a) /\
          0 < max_budget (preferences a)) ->
         generate_offer a (Some prev) = prev) /\
        (services prev = Basic -> generate_offer a (Some prev) <> prev)
    | wedding_planner =>
        (timeline prev = 0 /\ min_timeline (preferences a) <= 0) \/
        (timeline prev = min_timeline (preferences a) /\
         0 < min_timeline (preferences a)) ->
        generate_offer a (Some prev) = prev
    end.
Proof.
  intros a [b s t]. destruct (role a) eqn:Hr.
  - rewrite generate_offer_customer by assumption.
    cbn [budget services timeline]. split.
    + intros Hs Hb. f_equal.
      * unfold Rmin.
        destruct (Rle_dec (b * 1.05) (max_budget (preferences a)));
          destruct Hb as [[? ?] | [? ?]]; lra.
      * destruct s; try reflexivity. contradiction.
    + intros -> H. discriminate.
  - rewrite generate_offer_planner by assumption.
    cbn [budget services timeline].
    intros Ht. f_equal. unfold Rmax.
    destruct (Rle_dec (t * 0.9) (min_timeline (preferences a)));
      destruct Ht as [[? ?] | [? ?]]; lra.
Qed.

(** X15 on the two agents at a standstill: neither changes the offer with
    budget 10000 and timeline 6. *)
Lemma generate_offer_fixed_points_witness :
  generate_offer firm_customer (Some firm_offer) = firm_offer /\
  generate_offer firm_planner (Some firm_offer) = firm_offer.
Proof.
  split.
  - apply (proj1 (generate_offer_fixed_points firm_customer firm_offer)).
    + discriminate.
    + right. simpl. split; [reflexivity | lra].
  - apply (generate_offer_fixed_points firm_planner firm_offer).
    right. simpl. split; [reflexivity | lra].
Defined.
